(** * Multi-agent concierge: the conversation driver, the agents' completion
      signals and the finance research tools

    A shallow embedding of
    - [atlas/multiagents/finance_config.py]   (the [AgentName] enumeration),
    - [atlas/agents/finance/*_agent.py]       (the [done] tools),
    - [atlas/multiagents/concierge_agent.py]  (an agent without [memory]),
    - [atlas/multiagents/finance_research.py] (the loop of [run]),
    - [atlas/actions/finance/finance_tools.py] (current price, historical
      prices, sentiment analysis).

    The conversation state is a Python [dict] with string keys: it is a
    [gmap string pyval].  Exceptions are values of [pyexc]; a call either
    returns or raises.  What the outside world answers (the language model,
    the terminal, the HTTP providers) is an input of the model, and those
    calls are taken to return.  The program is sequential: a [chat] has
    returned, with all the assignments of its [done] calls made, before the
    loop goes on.  A string is the UTF-8 encoding of a Python [str].  A
    finite float is the rational number it equals: comparisons of floats are
    comparisons of these numbers, and what a sum or a quotient of floats
    rounds to is the library's business, as [float(s)] and [strptime] are. *)

From Stdlib Require Import ZArith QArith Lqa String Ascii List Sorted Permutation Lia.
From stdpp Require Import gmap strings list fin_maps.

Set Warnings "-register-all".

Local Open Scope string_scope.
Local Open Scope Z_scope.

(** ** Python values, exceptions *)

(** The values the driver stores in the state dictionary. *)
Inductive pyval : Type :=
| PyNone
| PyBool (b : bool)
| PyStr (s : string).

#[global] Instance pyval_eq_dec : EqDecision pyval.
Proof. solve_decision. Defined.

(** Truth value testing, as in [if state["current_agent"]:]. *)
Definition truthy (v : pyval) : bool :=
  match v with
  | PyNone => false
  | PyBool b => b
  | PyStr s => negb (String.eqb s "")
  end.

(** [v == True]. *)
Definition py_eq_True (v : pyval) : bool :=
  match v with
  | PyBool b => b
  | _ => false
  end.

(** The exception classes the modelled code can raise.  A [ValueError] keeps
    the fixed text of its message and, where the source formats [str(e)] of
    a caught exception into it, that exception. *)
Inductive pyexc : Type :=
| KeyError (key : string)
| ValueError (msg : string) (detail : option pyexc)
| TypeError
| AttributeError (attr : string)
| UnboundLocalError (var : string)
| HTTPError (status : Z)
| ZeroDivisionError.

Inductive result (A : Type) : Type :=
| Ok (a : A)
| Raise (e : pyexc).
Arguments Ok {A} a.
Arguments Raise {A} e.

(** ** The agent names: [finance_config.py] *)

Inductive AgentName : Type :=
| STOCK_LOOKUP
| COMPANY_RESEARCH
| INDUSTRY_RESEARCH
| CONSUMER_RESEARCH
| CONCIERGE
| ORCHESTRATOR.

#[global] Instance AgentName_eq_dec : EqDecision AgentName.
Proof. solve_decision. Defined.

(** [AgentName] is a [str] enumeration: each member is its value. *)
Definition value (a : AgentName) : string :=
  match a with
  | STOCK_LOOKUP => "stock_lookup"
  | COMPANY_RESEARCH => "company_research"
  | INDUSTRY_RESEARCH => "industry_research"
  | CONSUMER_RESEARCH => "consumer_research"
  | CONCIERGE => "concierge"
  | ORCHESTRATOR => "orchestrator"
  end.

(** [v == AgentName.X]: a string compares equal to the member with that
    value, nothing else does. *)
Definition py_eq_agent (v : pyval) (a : AgentName) : bool :=
  match v with
  | PyStr s => String.eqb s (value a)
  | _ => false
  end.

(** ** The conversation state and the completion signals *)

Abbreviation State := (gmap string pyval).

(** [state[k] = v] *)
Definition setitem (k : string) (v : pyval) (s : State) : State := <[k := v]> s.

(** [state[k]], which raises [KeyError] on a missing key. *)
Definition getitem (s : State) (k : string) : result pyval :=
  match s !! k with
  | Some v => Ok v
  | None => Raise (KeyError k)
  end.

(** [get_initial_state()] of [finance_research.py]. *)
Definition get_initial_state : State :=
  setitem "ticker" PyNone
    (setitem "company_research" PyNone
      (setitem "industry_research" PyNone
        (setitem "consumer_research" PyNone
          (setitem "current_agent" PyNone
            (setitem "just_finished" (PyBool false) ∅))))).

(** The agent classes the driver instantiates. *)
Inductive AgentClass : Type :=
| StockAgent
| CompanyResearchAgent
| IndustryResearchAgent
| ConsumerResearchAgent
| ConciergeAgent.

#[global] Instance AgentClass_eq_dec : EqDecision AgentClass.
Proof. solve_decision. Defined.

(** The three assignments of [StockAgent]'s [done(ticker)], in order. *)
Definition stock_done (ticker : string) (s : State) : State :=
  let s := setitem "ticker" (PyStr ticker) s in
  let s := setitem "current_agent" PyNone s in
  setitem "just_finished" (PyBool true) s.

(** [CompanyResearchAgent.done(research_result)]. *)
Definition company_done (research_result : string) (s : State) : State :=
  let s := setitem "company_research" (PyStr research_result) s in
  let s := setitem "current_agent" PyNone s in
  setitem "just_finished" (PyBool true) s.

(** [IndustryResearchAgent]'s [done(research_result)]. *)
Definition industry_done (research_result : string) (s : State) : State :=
  let s := setitem "industry_research" (PyStr research_result) s in
  let s := setitem "current_agent" PyNone s in
  setitem "just_finished" (PyBool true) s.

(** [ConsumerResearchAgent]'s [done(research_result)]. *)
Definition consumer_done (research_result : string) (s : State) : State :=
  let s := setitem "consumer_research" (PyStr research_result) s in
  let s := setitem "current_agent" PyNone s in
  setitem "just_finished" (PyBool true) s.

(** The [done] tool an agent class registers; [ConciergeAgent] registers
    only [dummy_tool], which touches nothing. *)
Definition done_tool (c : AgentClass) : option (string -> State -> State) :=
  match c with
  | StockAgent => Some stock_done
  | CompanyResearchAgent => Some company_done
  | IndustryResearchAgent => Some industry_done
  | ConsumerResearchAgent => Some consumer_done
  | ConciergeAgent => None
  end.

(** The state key an agent's completion signal writes its payload to. *)
Definition owned_key (c : AgentClass) : option string :=
  match c with
  | StockAgent => Some "ticker"
  | CompanyResearchAgent => Some "company_research"
  | IndustryResearchAgent => Some "industry_research"
  | ConsumerResearchAgent => Some "consumer_research"
  | ConciergeAgent => None
  end.

(** Whether [__init__] sets [self.memory = self.agent.memory]. *)
Definition has_memory (c : AgentClass) : bool :=
  match c with
  | ConciergeAgent => false
  | _ => true
  end.

(** ** String helpers of the driver *)

(** A string is the UTF-8 encoding of a Python [str].  [str.strip()] removes
    the characters for which [str.isspace()] holds.  Those of one byte: tab,
    line feed, vertical tab, form feed, carriage return, the separators 28
    to 31 and the space. *)
Definition is_space (c : ascii) : bool :=
  let n := N_of_ascii c in
  ((9 <=? n) && (n <=? 13) || (28 <=? n) && (n <=? 32))%N.

(** Those of two bytes: U+0085 and U+00A0. *)
Definition is_space2 (c1 c2 : ascii) : bool :=
  let a := N_of_ascii c1 in
  let b := N_of_ascii c2 in
  ((a =? 194) && ((b =? 133) || (b =? 160)))%N.

(** Those of three bytes: U+1680, U+2000 to U+200A, U+2028, U+2029, U+202F,
    U+205F and U+3000. *)
Definition is_space3 (c1 c2 c3 : ascii) : bool :=
  let a := N_of_ascii c1 in
  let b := N_of_ascii c2 in
  let c := N_of_ascii c3 in
  ((a =? 225) && (b =? 154) && (c =? 128)
   || (a =? 226) && (b =? 128)
      && ((128 <=? c) && (c <=? 138) || (c =? 168) || (c =? 169) || (c =? 175))
   || (a =? 226) && (b =? 129) && (c =? 159)
   || (a =? 227) && (b =? 128) && (c =? 128))%N.

Fixpoint lstrip (s : string) : string :=
  match s with
  | EmptyString => EmptyString
  | String c1 s1 =>
      if is_space c1 then lstrip s1
      else
        match s1 with
        | String c2 s2 =>
            if is_space2 c1 c2 then lstrip s2
            else
              match s2 with
              | String c3 s3 => if is_space3 c1 c2 c3 then lstrip s3 else s
              | EmptyString => s
              end
        | EmptyString => s
        end
  end.

(** The same from the right end, on the bytes in reverse order. *)
Fixpoint rstrip_reversed (l : list ascii) : list ascii :=
  match l with
  | [] => []
  | c1 :: l1 =>
      if is_space c1 then rstrip_reversed l1
      else
        match l1 with
        | c2 :: l2 =>
            if is_space2 c2 c1 then rstrip_reversed l2
            else
              match l2 with
              | c3 :: l3 => if is_space3 c3 c2 c1 then rstrip_reversed l3 else l
              | [] => l
              end
        | [] => l
        end
  end.

Definition rstrip (s : string) : string :=
  string_of_list_ascii (rev (rstrip_reversed (rev (list_ascii_of_string s)))).

(** [s.strip()] *)
Definition strip (s : string) : string := rstrip (lstrip s).

(** [needle in hay] on strings. *)
Fixpoint contains (needle hay : string) : bool :=
  String.prefix needle hay ||
  match hay with
  | EmptyString => false
  | String _ hay' => contains needle hay'
  end.

(** ** The driver loop: [run()] of [finance_research.py] *)

(** A chat history, as [ChatMemoryBuffer] holds it. *)
Definition History : Type := list string.

(** What the outside world answers during one pass of the loop body. *)
Record World : Type := mkWorld {
  w_stdin : string;            (* the line [input()] returns, if it is called *)
  w_quality : string;          (* [str(response.response)] of the quality evaluation agent *)
  w_orchestrator : string;     (* [str(orchestration_response)] *)
  w_done_calls : list string;  (* arguments of the [done] calls the agent's model makes in [chat] *)
  w_memory : History;          (* [current_agent.memory.get_all()] after [chat] *)
  w_root_get : History -> History  (* [root_memory.get()]: the token-limited view *)
}.

(** The calls the driver makes to the outside world. *)
Inductive Event : Type :=
| EInput (prompt : string)
| EQualityEval (chat_history : History)
| EOrchestrate (user_query : string) (chat_history : History)
| EChat (agent : AgentClass) (message : string) (chat_history : History)
| EDone (agent : AgentClass) (payload : string).

#[global] Instance Event_eq_dec : EqDecision Event.
Proof. solve_decision. Defined.

(** Driver code runs in [M]: it logs events and returns or raises. *)
Definition M (A : Type) : Type := (list Event * result A)%type.

#[global] Instance M_ret : MRet M := fun A a => ([], Ok a).
#[global] Instance M_bind : MBind M := fun A B f m =>
  match m with
  | (l, Ok a) => let '(l', r) := f a in ((l ++ l')%list, r)
  | (l, Raise e) => (l, Raise e)
  end.

Definition emit (e : Event) : M unit := ([e], Ok tt).
Definition raise {A : Type} (e : pyexc) : M A := ([], Raise e).
Definition lift {A : Type} (r : result A) : M A := ([], r).

Definition events {A : Type} (m : M A) : list Event := fst m.
Definition outcome {A : Type} (m : M A) : result A := snd m.

(** The local variables of [run] that live across passes of the loop. *)
Record Driver : Type := mkDriver {
  state : State;
  first_run : bool;
  is_retry : bool;
  num_tries : Z;
  root_memory : History;
  current_history : option History   (* [None]: not yet assigned *)
}.

Definition set_state (s : State) (d : Driver) : Driver :=
  mkDriver s (first_run d) (is_retry d) (num_tries d) (root_memory d) (current_history d).
Definition set_first_run (b : bool) (d : Driver) : Driver :=
  mkDriver (state d) b (is_retry d) (num_tries d) (root_memory d) (current_history d).
Definition set_is_retry (b : bool) (d : Driver) : Driver :=
  mkDriver (state d) (first_run d) b (num_tries d) (root_memory d) (current_history d).
Definition set_num_tries (n : Z) (d : Driver) : Driver :=
  mkDriver (state d) (first_run d) (is_retry d) n (root_memory d) (current_history d).
Definition set_root_memory (h : History) (d : Driver) : Driver :=
  mkDriver (state d) (first_run d) (is_retry d) (num_tries d) h (current_history d).
Definition set_current_history (h : History) (d : Driver) : Driver :=
  mkDriver (state d) (first_run d) (is_retry d) (num_tries d) (root_memory d) (Some h).

(** Lines 94 to 101: the variables before the loop. *)
Definition initial_driver : Driver :=
  mkDriver get_initial_state true false 0 [] None.

Definition retry_message : string := "That's not right, try again. Pick one agent.".

(** Lines 104 to 130: the message of this pass.  The four branches are the
    first run, the routing retry, the quality evaluation and the user input. *)
Definition next_message (w : World) (d : Driver) : M (Driver * string) :=
  let d := set_num_tries (num_tries d + 1) d in
  if first_run d then
    mret (set_first_run false d, "Hello")
  else if is_retry d then
    mret (set_is_retry false d, retry_message)
  else
    jf ← lift (getitem (state d) "just_finished");
    if py_eq_True jf && (num_tries d <? 5) then
      match current_history d with
      | None => raise (UnboundLocalError "current_history")
      | Some h =>
          _ ← emit (EQualityEval h);
          let user_msg_str := strip (w_quality w) in
          if contains "no_further_task" user_msg_str then
            _ ← emit (EInput ">> ");
            let user_msg_str := strip (w_stdin w) in
            let d := set_state (setitem "just_finished" (PyBool false) (state d)) d in
            mret (set_num_tries 0 d, user_msg_str)
          else
            mret (d, user_msg_str)
      end
    else
      _ ← emit (EInput "> ");
      let user_msg_str := strip (w_stdin w) in
      let d := set_state get_initial_state d in
      mret (set_num_tries 0 d, user_msg_str).

(** Lines 134 to 146: who should speak next. *)
Definition who_speaks_next (w : World) (s : State) (chat_history : History)
    (user_msg_str : string) : M pyval :=
  ca ← lift (getitem s "current_agent");
  if truthy ca then
    mret ca
  else
    _ ← emit (EOrchestrate user_msg_str chat_history);
    mret (PyStr (strip (w_orchestrator w))).

(** Lines 150 to 173: the chain of comparisons with the agent names; [None]
    is the final [else]. *)
Definition select_agent (next_speaker : pyval) : option AgentClass :=
  if py_eq_agent next_speaker STOCK_LOOKUP then Some StockAgent
  else if py_eq_agent next_speaker COMPANY_RESEARCH then Some CompanyResearchAgent
  else if py_eq_agent next_speaker INDUSTRY_RESEARCH then Some IndustryResearchAgent
  else if py_eq_agent next_speaker CONSUMER_RESEARCH then Some ConsumerResearchAgent
  else if py_eq_agent next_speaker CONCIERGE then Some ConciergeAgent
  else None.

(** The [done] calls of one [chat], applied to the shared state in order. *)
Fixpoint apply_done_calls (c : AgentClass) (f : string -> State -> State)
    (calls : list string) (s : State) : M State :=
  match calls with
  | [] => mret s
  | p :: calls' =>
      _ ← emit (EDone c p);
      apply_done_calls c f calls' (f p s)
  end.

(** Line 179: [current_agent.chat(user_msg_str, chat_history=current_history)];
    the state is the dictionary the agent was built on. *)
Definition chat (c : AgentClass) (w : World) (message : string)
    (chat_history : History) (s : State) : M State :=
  _ ← emit (EChat c message chat_history);
  match done_tool c with
  | Some f => apply_done_calls c f (w_done_calls w) s
  | None => mret s
  end.

(** Lines 132 to 184: the rest of the pass, once the message is known. *)
Definition speak (w : World) (d : Driver) (user_msg_str : string) : M Driver :=
  let h := w_root_get w (root_memory d) in
  let d := set_current_history h d in
  next_speaker ← who_speaks_next w (state d) h user_msg_str;
  match select_agent next_speaker with
  | None => mret (set_is_retry true d)
  | Some c =>
      let d := set_state (setitem "current_agent" next_speaker (state d)) d in
      s ← chat c w user_msg_str h (state d);
      let d := set_state s d in
      if has_memory c then
        mret (set_root_memory (w_memory w) d)
      else
        raise (AttributeError "memory")
  end.

(** One pass of the body of [while True]. *)
Definition iteration (w : World) (d : Driver) : M Driver :=
  '(d, user_msg_str) ← next_message w d;
  speak w d user_msg_str.

(** The loop over the answers of the world, one per pass; an exception ends
    the program. *)
Fixpoint run_from (ws : list World) (d : Driver) : M Driver :=
  match ws with
  | [] => mret d
  | w :: ws' => d' ← iteration w d; run_from ws' d'
  end.

Definition run (ws : list World) : M Driver := run_from ws initial_driver.

(** ** The finance research tools: [finance_tools.py] *)

#[global] Instance result_ret : MRet result := fun A a => Ok a.
#[global] Instance result_bind : MBind result := fun A B f r =>
  match r with
  | Ok a => f a
  | Raise e => Raise e
  end.

(** Decoded JSON, as [response.json()] returns it; an object keeps its
    members in order. *)
Inductive json : Type :=
| JNull
| JBool (b : bool)
| JNum (x : Q)
| JStr (s : string)
| JArr (items : list json)
| JObj (members : list (string * json)).

(** The first member of an object with the given key. *)
Fixpoint assoc (k : string) (members : list (string * json)) : option json :=
  match members with
  | [] => None
  | (k', v) :: members' => if String.eqb k k' then Some v else assoc k members'
  end.

(** [k in data] for a string [k]. *)
Definition json_in (k : string) (data : json) : result bool :=
  match data with
  | JObj members => Ok (bool_decide (is_Some (assoc k members)))
  | JArr items =>
      Ok (existsb (fun x => match x with JStr s => String.eqb s k | _ => false end) items)
  | JStr s => Ok (contains k s)
  | _ => Raise TypeError
  end.

(** [data[k]] for a string [k]. *)
Definition json_getitem (data : json) (k : string) : result json :=
  match data with
  | JObj members =>
      match assoc k members with
      | Some v => Ok v
      | None => Raise (KeyError k)
      end
  | _ => Raise TypeError
  end.

(** [data.get(k, default)] *)
Definition json_get (data : json) (k : string) (default : json) : result json :=
  match data with
  | JObj members => Ok (from_option id default (assoc k members))
  | _ => Raise (AttributeError "get")
  end.

(** [data.items()] *)
Definition json_items (data : json) : result (list (string * json)) :=
  match data with
  | JObj members => Ok members
  | _ => Raise (AttributeError "items")
  end.

(** Truth value testing, as in [if not articles:]. *)
Definition json_truthy (data : json) : bool :=
  match data with
  | JNull => false
  | JBool b => b
  | JNum x => negb (Qeq_bool x 0)
  | JStr s => negb (String.eqb s "")
  | JArr items => match items with [] => false | _ => true end
  | JObj members => match members with [] => false | _ => true end
  end.

(** The elements [for article in articles] visits. *)
Definition json_iter (data : json) : result (list json) :=
  match data with
  | JArr items => Ok items
  | JObj members => Ok (map (fun kv => JStr (fst kv)) members)
  | JStr s => Ok (map (fun c => JStr (String c EmptyString)) (list_ascii_of_string s))
  | _ => Raise TypeError
  end.

(** What the code takes from Python's library and from TextBlob. *)
Class Library : Type := {
  float_of_str : string -> option Q;   (* [float(s)] on a string; [None]: [ValueError] *)
  strptime : string -> option Z;       (* [datetime.strptime(s, "%Y-%m-%d")] as a point on the time line *)
  format_value : json -> string;       (* how an f-string formats a decoded value *)
  polarity : string -> Q;              (* [TextBlob(text).sentiment.polarity] *)
  float_sum : list Q -> Q;             (* [sum(l)] on floats, with its rounding *)
  float_div : Q -> Q -> Q              (* [x / y] on floats, [y] not zero, with its rounding *)
}.

(** One entry of the result of [get_historical_stock_prices]. *)
Record PricePoint : Type := mkPricePoint {
  date : string;
  price : Q
}.

(** The dictionary [get_sentiment_analysis] returns. *)
Record Sentiment : Type := mkSentiment {
  overall_sentiment : Q;
  positive_articles : nat;
  neutral_articles : nat;
  negative_articles : nat;
  article_count : nat
}.

(** A response of [requests.get]. *)
Record Response : Type := mkResponse {
  status_code : Z;
  body : json
}.

(** [sorted(l, key=lambda x: x["date"])]: stable, ascending in the string
    order of the keys. *)
Fixpoint insert_by_date (x : PricePoint) (l : list PricePoint) : list PricePoint :=
  match l with
  | [] => [x]
  | y :: l' =>
      if String.leb (date x) (date y) then x :: y :: l'
      else y :: insert_by_date x l'
  end.

Fixpoint sorted_by_date (l : list PricePoint) : list PricePoint :=
  match l with
  | [] => []
  | x :: l' => insert_by_date x (sorted_by_date l')
  end.

Definition Qltb (x y : Q) : bool := negb (Qle_bool y x).

(** The float that the literal [0.05] denotes: the double nearest to 1/20,
    which is 3602879701896397 / 2^56. *)
Definition float_0_05 : Q := 3602879701896397 # 72057594037927936.

(** [sum(1 for s in sentiments if test(s))] *)
Fixpoint count_if (test : Q -> bool) (l : list Q) : nat :=
  match l with
  | [] => 0%nat
  | s :: l' => ((if test s then 1 else 0) + count_if test l')%nat
  end.

Section Tools.
Context {L : Library}.

(** [float(x)] *)
Definition py_float (x : json) : result Q :=
  match x with
  | JStr s =>
      match float_of_str s with
      | Some q => Ok q
      | None => Raise (ValueError "could not convert string to float" None)
      end
  | JNum q => Ok q
  | JBool b => Ok (if b then 1%Q else 0%Q)
  | _ => Raise TypeError
  end.

(** [datetime.strptime(s, "%Y-%m-%d")] *)
Definition py_strptime (s : string) : result Z :=
  match strptime s with
  | Some t => Ok t
  | None => Raise (ValueError "time data does not match format" None)
  end.

(** [get_current_stock_price], from the decoded response on. *)
Definition get_current_stock_price (data : json) : result Q :=
  quote ← json_getitem data "Global Quote";
  p ← json_getitem quote "05. price";
  py_float p.

(** The loop over [time_series.items()]. *)
Fixpoint collect_prices (start_date end_date : Z)
    (items : list (string * json)) : result (list PricePoint) :=
  match items with
  | [] => Ok []
  | (date_str, values) :: items' =>
      d ← py_strptime date_str;
      if (start_date <=? d) && (d <=? end_date) then
        close ← json_getitem values "4. close";
        p ← py_float close;
        rest ← collect_prices start_date end_date items';
        Ok (mkPricePoint date_str p :: rest)
      else
        collect_prices start_date end_date items'
  end.

(** [get_historical_stock_prices], from the decoded response on.  The
    message of the first [ValueError] is an f-string that holds
    [data['Error Message']]: the subscript is evaluated before the
    exception is raised. *)
Definition get_historical_stock_prices (data : json)
    (start_date end_date : string) : result (list PricePoint) :=
  has_error ← json_in "Error Message" data;
  if (has_error : bool) then
    _ ← json_getitem data "Error Message";
    Raise (ValueError "API Error" None)
  else
    has_series ← json_in "Time Series (Daily)" data;
    if negb has_series then Raise (ValueError "Unable to fetch historical data" None)
    else
      time_series ← json_getitem data "Time Series (Daily)";
      start_date ← py_strptime start_date;
      end_date ← py_strptime end_date;
      items ← json_items time_series;
      historical_prices ← collect_prices start_date end_date items;
      match historical_prices with
      | [] => Raise (ValueError "No historical prices found" None)
      | _ => Ok (sorted_by_date historical_prices)
      end.

(** The polarity of one article: [TextBlob(f"{title} {description}")]. *)
Definition article_polarity (article : json) : result Q :=
  title ← json_getitem article "title";
  description ← json_getitem article "description";
  Ok (polarity (format_value title ++ " " ++ format_value description)).

Fixpoint article_polarities (articles : list json) : result (list Q) :=
  match articles with
  | [] => Ok []
  | article :: articles' =>
      s ← article_polarity article;
      rest ← article_polarities articles';
      Ok (s :: rest)
  end.

(** [response.raise_for_status()] *)
Definition raise_for_status (response : Response) : result unit :=
  if (400 <=? status_code response) && (status_code response <? 600)
  then Raise (HTTPError (status_code response))
  else Ok tt.

(** The body of the [try] of [get_sentiment_analysis]. *)
Definition sentiment_body (response : Response) : result Sentiment :=
  _ ← raise_for_status response;
  articles ← json_get (body response) "articles" (JArr []);
  if negb (json_truthy articles) then
    Raise (ValueError "No news articles found for the query" None)
  else
    items ← json_iter articles;
    sentiments ← article_polarities items;
    match length sentiments with
    | O => Raise ZeroDivisionError
    | S _ =>
        Ok {| overall_sentiment :=
                float_div (float_sum sentiments)
                  (inject_Z (Z.of_nat (length sentiments)));
              positive_articles := count_if (fun s => Qltb float_0_05 s) sentiments;
              neutral_articles :=
                count_if (fun s => Qle_bool (- float_0_05) s && Qle_bool s float_0_05)
                  sentiments;
              negative_articles := count_if (fun s => Qltb s (- float_0_05)) sentiments;
              article_count := length items |}
    end.

(** [get_sentiment_analysis], from the response on: the two [except]
    clauses turn every exception into a [ValueError]. *)
Definition get_sentiment_analysis (response : Response) : result Sentiment :=
  match sentiment_body response with
  | Ok r => Ok r
  | Raise (HTTPError c) =>
      Raise (ValueError "Error fetching news articles: " (Some (HTTPError c)))
  | Raise e =>
      Raise (ValueError "Error performing sentiment analysis: " (Some e))
  end.
End Tools.

(** ** A reference library for the examples

    Stand-ins for the library functions: decimal numerals, the dates that
    [strptime] accepts for the format ["%Y-%m-%d"], a two-word polarity
    lexicon with scores that are multiples of 1/4, and sums and quotients
    without rounding, which is what double arithmetic gives on the scores
    of the examples. *)

Definition digit_of (c : ascii) : option Z :=
  let n := Z.of_N (N_of_ascii c) in
  if (48 <=? n) && (n <=? 57) then Some (n - 48) else None.

Fixpoint digits_value (acc : Z) (s : string) : option Z :=
  match s with
  | EmptyString => Some acc
  | String c s' =>
      match digit_of c with
      | Some v => digits_value (10 * acc + v) s'
      | None => None
      end
  end.

(** The part of a string before the first [sep], and the part after it. *)
Fixpoint split_at (sep : ascii) (s : string) : string * option string :=
  match s with
  | EmptyString => (EmptyString, None)
  | String c s' =>
      if Ascii.eqb c sep then (EmptyString, Some s')
      else let '(a, b) := split_at sep s' in (String c a, b)
  end.

(** Numerals of the form [digits] or [digits.digits]. *)
Definition decimal_of_string (s : string) : option Q :=
  match split_at "." s with
  | (EmptyString, _) => None
  | (i, None) => (fun n => inject_Z n) <$> digits_value 0 i
  | (i, Some f) =>
      match digits_value 0 i, digits_value 0 f with
      | Some n, Some m =>
          let scale := 10 ^ Z.of_nat (String.length f) in
          Some (Qred (Qmake (n * scale + m) (Z.to_pos scale)))
      | _, _ => None
      end
  end.

(** [datetime.strptime(s, "%Y-%m-%d")] on ASCII text, as the number
    YYYYMMDD, which orders dates as the time line does.  The directive [%Y]
    takes four digits; [%m] takes one or two digits that give 1 to 12; [%d]
    takes one or two digits that give 1 to 31, or a space and a digit from 1
    to 9; nothing may remain; and the year is not 0 and the month has the
    day. *)
Definition is_leap (y : Z) : bool :=
  (y mod 4 =? 0) && (negb (y mod 100 =? 0) || (y mod 400 =? 0)).

Definition days_in_month (y m : Z) : Z :=
  if m =? 2 then (if is_leap y then 29 else 28)
  else if (m =? 4) || (m =? 6) || (m =? 9) || (m =? 11) then 30
  else 31.

(** One or two digits. *)
Definition short_number (s : string) : option Z :=
  if (1 <=? String.length s)%nat && (String.length s <=? 2)%nat
  then digits_value 0 s else None.

Definition day_number (s : string) : option Z :=
  match s with
  | String c1 (String c2 EmptyString) =>
      if Ascii.eqb c1 " " then digit_of c2 else short_number s
  | _ => short_number s
  end.

Definition python_strptime (s : string) : option Z :=
  match split_at "-" s with
  | (y, Some rest) =>
      match split_at "-" rest with
      | (m, Some d) =>
          if (String.length y =? 4)%nat then
            match digits_value 0 y, short_number m, day_number d with
            | Some y, Some m, Some d =>
                if (1 <=? y) && (1 <=? m) && (m <=? 12)
                   && (1 <=? d) && (d <=? days_in_month y m)
                then Some (y * 10000 + m * 100 + d) else None
            | _, _, _ => None
            end
          else None
      | _ => None
      end
  | _ => None
  end.

Definition is_digit (c : ascii) : bool := bool_decide (is_Some (digit_of c)).

(** A date written as four digits, two digits and two digits, with hyphens
    between them. *)
Definition zero_padded (s : string) : bool :=
  match s with
  | String y1 (String y2 (String y3 (String y4 (String h1 (String m1 (String m2
      (String h2 (String d1 (String d2 EmptyString))))))))) =>
      is_digit y1 && is_digit y2 && is_digit y3 && is_digit y4 && Ascii.eqb h1 "-"
      && is_digit m1 && is_digit m2 && Ascii.eqb h2 "-" && is_digit d1 && is_digit d2
  | _ => false
  end.

Definition format_reference (v : json) : string :=
  match v with
  | JStr s => s
  | JNull => "None"
  | JBool true => "True"
  | JBool false => "False"
  | _ => "?"
  end.

Definition lexicon_polarity (text : string) : Q :=
  if contains "great" text then (3 # 4)%Q
  else if contains "bad" text then (- (1 # 2))%Q
  else 0%Q.

Definition exact_sum (l : list Q) : Q := Qred (fold_left Qplus l 0%Q).

Definition exact_div (x y : Q) : Q := Qred (x / y).

Definition reference_library : Library :=
  {| float_of_str := decimal_of_string;
     strptime := python_strptime;
     format_value := format_reference;
     polarity := lexicon_polarity;
     float_sum := exact_sum;
     float_div := exact_div |}.

(** ** Worlds for the examples *)

Definition no_truncation (h : History) : History := h.

(** The orchestrator answers with something that names no agent. *)
Definition world_invalid : World :=
  mkWorld "next question" "no_further_task" "I think the stock agent" [] [] no_truncation.

(** The orchestrator picks the stock agent, which finishes with a ticker. *)
Definition world_stock_done : World :=
  mkWorld "What about the company?" "Please also research the company."
    " stock_lookup " ["CRM"] ["Hello"; "CRM trades at 250.00"] no_truncation.

(** The orchestrator picks the company agent, which asks back and does not
    call [done]; the quality evaluation asks for more. *)
Definition world_company_asks : World :=
  mkWorld "Salesforce" "Please also research the company."
    "company_research" [] ["Hello"; "Which company do you mean?"] no_truncation.

(** The industry agent finishes; the quality evaluation is satisfied. *)
Definition world_industry_done : World :=
  mkWorld "How is the software industry?" "no_further_task"
    "industry_research" ["Software peers: MSFT, ORCL"] ["peers"] no_truncation.

(** The orchestrator picks the company agent, which finishes with a report. *)
Definition world_company_done : World :=
  mkWorld "And the industry?" "no_further_task"
    "company_research" ["Salesforce sells CRM software."] ["report"] no_truncation.

(** The orchestrator picks the concierge. *)
Definition world_concierge : World :=
  mkWorld "hi" "no_further_task" "concierge" [] ["Hello"; "How can I help?"] no_truncation.

(** Data of the repository's tests. *)

(** The response of [test_get_sentiment_analysis]. *)
Definition test_sentiment_articles : list json :=
  [JObj [("title", JStr "Apple is great"); ("description", JStr "Apple stock is rising.")];
   JObj [("title", JStr "Apple is bad"); ("description", JStr "Apple stock is falling.")]].

Definition test_sentiment_texts : list (json * json) :=
  [(JStr "Apple is great", JStr "Apple stock is rising.");
   (JStr "Apple is bad", JStr "Apple stock is falling.")].

Definition test_sentiment_response : Response :=
  mkResponse 200 (JObj [("articles", JArr test_sentiment_articles)]).



(** A time series like the one of [test_get_historical_stock_prices], with a
    third day and not in date order. *)
Definition test_series : list (string * json) :=
  [("2023-01-03", JObj [("4. close", JStr "157.50")]);
   ("2023-01-02", JObj [("4. close", JStr "155.00")]);
   ("2023-01-01", JObj [("4. close", JStr "150.00")])].

Definition test_historical_data : json :=
  JObj [("Meta Data", JObj []); ("Time Series (Daily)", JObj test_series)].

Definition test_historical_prices : list PricePoint :=
  [mkPricePoint "2023-01-01" (150 # 1); mkPricePoint "2023-01-02" (155 # 1)].

(** * Vocabulary of the properties *)

(** ** The driver *)

(** The events and the final state of one [chat]. *)
Definition chat_events (c : AgentClass) (w : World) (message : string)
    (h : History) : list Event :=
  EChat c message h ::
  match done_tool c with
  | Some _ => map (EDone c) (w_done_calls w)
  | None => []
  end.

Definition chat_state (c : AgentClass) (w : World) (s : State) : State :=
  match done_tool c with
  | Some f => fold_left (fun s p => f p s) (w_done_calls w) s
  | None => s
  end.

(** The branches of lines 105 to 130, as a relation between the driver
    before, the events, the driver after and the message. *)
Inductive NextMessage (w : World) (d : Driver) :
    list Event -> Driver -> string -> Prop :=
| NM_first_run :
    first_run d = true ->
    NextMessage w d []
      (set_first_run false (set_num_tries (num_tries d + 1) d)) "Hello"
| NM_retry :
    first_run d = false -> is_retry d = true ->
    NextMessage w d []
      (set_is_retry false (set_num_tries (num_tries d + 1) d)) retry_message
| NM_eval_no_further_task h :
    first_run d = false -> is_retry d = false ->
    state d !! "just_finished" = Some (PyBool true) -> num_tries d + 1 < 5 ->
    current_history d = Some h ->
    contains "no_further_task" (strip (w_quality w)) = true ->
    NextMessage w d [EQualityEval h; EInput ">> "]
      (set_num_tries 0
         (set_state (setitem "just_finished" (PyBool false) (state d))
            (set_num_tries (num_tries d + 1) d)))
      (strip (w_stdin w))
| NM_eval_follow_up h :
    first_run d = false -> is_retry d = false ->
    state d !! "just_finished" = Some (PyBool true) -> num_tries d + 1 < 5 ->
    current_history d = Some h ->
    contains "no_further_task" (strip (w_quality w)) = false ->
    NextMessage w d [EQualityEval h]
      (set_num_tries (num_tries d + 1) d) (strip (w_quality w))
| NM_user_input jf :
    first_run d = false -> is_retry d = false ->
    state d !! "just_finished" = Some jf ->
    py_eq_True jf && (num_tries d + 1 <? 5) = false ->
    NextMessage w d [EInput "> "]
      (set_num_tries 0 (set_state get_initial_state (set_num_tries (num_tries d + 1) d)))
      (strip (w_stdin w)).

(** Who speaks, and whether the orchestrator was asked. *)
Definition speaker_of (w : World) (ca : pyval) : pyval :=
  if truthy ca then ca else PyStr (strip (w_orchestrator w)).

Definition speaker_events (ca : pyval) (msg : string) (h : History) : list Event :=
  if truthy ca then [] else [EOrchestrate msg h].

(** The slot holds [None] or a value that tests true. *)
Definition agent_slot_ok (s : State) : Prop :=
  exists v, s !! "current_agent" = Some v /\ (v = PyNone \/ truthy v = true).

(** The driver a finished run leaves, and the driver and message a pass
    continues with; used to name concrete drivers in the examples. *)
Definition driver_after (ws : list World) : Driver :=
  match outcome (run ws) with
  | Ok d => d
  | Raise _ => initial_driver
  end.

Definition driver_with_message (w : World) (d : Driver) : Driver :=
  match outcome (next_message w d) with
  | Ok (d', _) => d'
  | Raise _ => d
  end.

(** The orchestrator's answer of this pass names none of the five agents. *)
Definition invalid_decision (w : World) : Prop :=
  select_agent (PyStr (strip (w_orchestrator w))) = None.

Definition reads_user_input (evs : list Event) : Prop :=
  exists prompt, In (EInput prompt) evs.

Definition is_orchestrate (e : Event) : Prop :=
  exists q h, e = EOrchestrate q h.

(** Bounded retry, as the specification words it: after [cap + 1] invalid
    decisions in a row, from the start of the program, the next pass reads
    user input. *)
Definition routing_retry_capped (cap : nat) : Prop :=
  forall ws w,
    length ws = S cap -> Forall invalid_decision ws ->
    reads_user_input (events (run (ws ++ [w]))).

(** The events of choosing the message are evaluations and inputs only. *)
Definition is_message_event (e : Event) : Prop :=
  match e with
  | EInput _ | EQualityEval _ => True
  | _ => False
  end.

(** Reset on user input, as the specification words it: every pass that
    reads user input resets the state; over the drivers a run can reach. *)
Definition reset_on_every_user_input : Prop :=
  forall ws evs0 d w evs d' msg,
    run ws = (evs0, Ok d) ->
    next_message w d = (evs, Ok (d', msg)) ->
    reads_user_input evs ->
    state d' = get_initial_state.

Definition evaluates (evs : list Event) : Prop :=
  exists h, In (EQualityEval h) evs.

(** Flag clearing, as the specification words it: [just_finished] is
    [False] after every quality evaluation; over the drivers a run can
    reach. *)
Definition flag_cleared_after_every_evaluation : Prop :=
  forall ws evs0 d w evs d' msg,
    run ws = (evs0, Ok d) ->
    next_message w d = (evs, Ok (d', msg)) ->
    evaluates evs ->
    state d' !! "just_finished" = Some (PyBool false).

Definition result_fields : list string :=
  ["company_research"; "industry_research"; "consumer_research"].

(** ** The tools *)

(** The three classes of scores. *)
Definition positive (s : Q) : Prop := (float_0_05 < s)%Q.

Definition neutral (s : Q) : Prop := (- float_0_05 <= s)%Q /\ (s <= float_0_05)%Q.

Definition negative (s : Q) : Prop := (s < - float_0_05)%Q.

(** [Count P l n]: [n] of the scores [l] are in the class [P]. *)
Inductive Count (P : Q -> Prop) : list Q -> nat -> Prop :=
| Count_nil : Count P [] 0
| Count_in s l n : P s -> Count P l n -> Count P (s :: l) (S n)
| Count_out s l n : ~ P s -> Count P l n -> Count P (s :: l) n.

(** The sum and the arithmetic mean of rational numbers. *)
Definition Qsum (l : list Q) : Q := fold_right Qplus 0%Q l.

Definition mean (l : list Q) : Q := (Qsum l / inject_Z (Z.of_nat (length l)))%Q.

Section ToolVocabulary.
Context {L : Library}.

(** An article with this title and this description. *)
Definition has_text (article : json) (text : json * json) : Prop :=
  exists members,
    article = JObj members /\
    assoc "title" members = Some (fst text) /\
    assoc "description" members = Some (snd text).

(** The polarity score of an article: that of its title and its
    description, formatted, with a space between them. *)
Definition score_of (text : json * json) : Q :=
  polarity (format_value (fst text) ++ " " ++ format_value (snd text)).

(** A record is returned for every non-empty list of fetched articles. *)
Definition returns_for_every_article_list : Prop :=
  forall response items,
    status_code response < 400 \/ 600 <= status_code response ->
    json_get (body response) "articles" (JArr []) = Ok (JArr items) ->
    items <> [] ->
    exists r, get_sentiment_analysis response = Ok r /\
              article_count r = length items.

(** Whether a date string parses to a point of [[s, e]]. *)
Definition in_range (s e : Z) (date_str : string) : bool :=
  match strptime date_str with
  | Some t => (s <=? t) && (t <=? e)
  | None => false
  end.

(** The entries of the time series whose dates lie in [[s, e]], in the
    order of the series. *)
Fixpoint entries_in_range (s e : Z) (series : list (string * json)) :
    list (string * json) :=
  match series with
  | [] => []
  | entry :: series' =>
      if in_range s e (fst entry) then entry :: entries_in_range s e series'
      else entries_in_range s e series'
  end.

(** A returned point is the entry with its closing price converted. *)
Definition priced (entry : string * json) (p : PricePoint) : Prop :=
  date p = fst entry /\
  exists close, json_getitem (snd entry) "4. close" = Ok close /\
                py_float close = Ok (price p).


(** The order [sorted] puts the points in: the string order of the dates. *)
Definition date_le (p q : PricePoint) : Prop := String.leb (date p) (date q) = true.


(** String order and date order agree on the dates of the series, as they
    do for zero-padded ISO dates. *)
Definition string_order_is_date_order (series : list (string * json)) : Prop :=
  forall a b ta tb,
    In a (map fst series) -> In b (map fst series) ->
    strptime a = Some ta -> strptime b = Some tb ->
    String.leb a b = true -> ta <= tb.


End ToolVocabulary.

(** * More of the code *)

(** ** The orchestrator's tools: [orchestrator_agent.py] *)

(** [v is not None] *)
Definition is_not_None (v : pyval) : bool :=
  match v with
  | PyNone => false
  | _ => true
  end.

(** [OrchestrationAgent.has_ticker], on the dictionary [self.state]. *)
Definition has_ticker (s : State) : result bool :=
  ticker ← getitem s "ticker";
  Ok (is_not_None ticker).

(** [OrchestrationAgent.has_company_research] *)
Definition has_company_research (s : State) : result bool :=
  ticker ← getitem s "ticker";
  research ← getitem s "company_research";
  Ok (is_not_None ticker && is_not_None research).

(** [OrchestrationAgent.has_industry_research] *)
Definition has_industry_research (s : State) : result bool :=
  research ← getitem s "industry_research";
  Ok (is_not_None research).

(** [OrchestrationAgent.has_consumer_research] *)
Definition has_consumer_research (s : State) : result bool :=
  research ← getitem s "consumer_research";
  Ok (is_not_None research).

(** ** Symbol search and company leadership: [finance_tools.py] *)

(** The dictionary [search_for_stock_symbol] returns. *)
Record StockSymbol : Type := mkStockSymbol {
  ss_symbol : json;
  ss_name : json;
  ss_type : json;
  ss_region : json;
  ss_currency : json
}.

(** [not v] and [v[0]] in one: [None] when [v] tests false, else what
    [v[0]] gives.  A dictionary decoded from JSON has string keys only, so
    the key 0 is missing from it; a string gives its first character; a
    number or [True] cannot be indexed. *)
Definition json_first (v : json) : option (result json) :=
  match v with
  | JArr (x :: _) => Some (Ok x)
  | JObj (_ :: _) => Some (Raise (KeyError "0"))
  | JStr (String c _) => Some (Ok (JStr (String c EmptyString)))
  | JNum x => if Qeq_bool x 0 then None else Some (Raise TypeError)
  | JBool true => Some (Raise TypeError)
  | _ => None
  end.

(** [search_for_stock_symbol], from the decoded response on.  Here too the
    message of the first [ValueError] holds [data['Error Message']]. *)
Definition search_for_stock_symbol (data : json) : result StockSymbol :=
  has_error ← json_in "Error Message" data;
  if (has_error : bool) then
    _ ← json_getitem data "Error Message";
    Raise (ValueError "API Error" None)
  else
    has_matches ← json_in "bestMatches" data;
    if negb has_matches then
      Raise (ValueError "No stock symbol found for company" None)
    else
      matches ← json_getitem data "bestMatches";
      match json_first matches with
      | None => Raise (ValueError "No stock symbol found for company" None)
      | Some first =>
          best ← first;
          symbol ← json_getitem best "1. symbol";
          name ← json_getitem best "2. name";
          type ← json_getitem best "3. type";
          region ← json_getitem best "4. region";
          currency ← json_getitem best "8. currency";
          Ok (mkStockSymbol symbol name type region currency)
      end.

(** The body of the [try] of [get_company_leadership]; [info] is what
    [yf.Ticker(ticker).info] gives, a value or an exception. *)
Definition leadership_body (info : result json) : result (list (string * json)) :=
  info ← info;
  ceo ← json_get info "ceo" (JStr "N/A");
  company ← json_get info "longName" (JStr "N/A");
  industry ← json_get info "industry" (JStr "N/A");
  sector ← json_get info "sector" (JStr "N/A");
  employees ← json_get info "fullTimeEmployees" (JStr "N/A");
  website ← json_get info "website" (JStr "N/A");
  Ok [("CEO", ceo); ("Company", company); ("Industry", industry);
      ("Sector", sector); ("Full Time Employees", employees); ("Website", website)].

(** [get_company_leadership]: the [except] clause prints the exception and
    returns the empty dictionary. *)
Definition get_company_leadership (info : result json) : result (list (string * json)) :=
  match leadership_body info with
  | Ok leadership => Ok leadership
  | Raise _ => Ok []
  end.

(** ** Vocabulary for these *)

(** The name that selects an agent class. *)
Definition class_name (c : AgentClass) : AgentName :=
  match c with
  | StockAgent => STOCK_LOOKUP
  | CompanyResearchAgent => COMPANY_RESEARCH
  | IndustryResearchAgent => INDUSTRY_RESEARCH
  | ConsumerResearchAgent => CONSUMER_RESEARCH
  | ConciergeAgent => CONCIERGE
  end.

(** What holds of the driver whenever [run] is at the head of the loop. *)
Record driver_ok (d : Driver) : Prop := mk_driver_ok {
  ok_keys : dom (state d) = dom get_initial_state;
  ok_slot :
    state d !! "current_agent" = Some PyNone \/
    exists c, state d !! "current_agent" = Some (PyStr (value (class_name c)));
  ok_first_run : first_run d = true ->
    is_retry d = false /\ state d !! "current_agent" = Some PyNone;
  ok_retry : is_retry d = true -> state d !! "current_agent" = Some PyNone;
  ok_history : first_run d = false -> is_Some (current_history d)
}.

(** Some agent's payload is in the state, under the agent's own key. *)
Definition delivered (s : State) : Prop :=
  exists c key payload, owned_key c = Some key /\ s !! key = Some (PyStr payload).

(** [just_finished] is only [True] together with a payload. *)
Definition flag_has_result (s : State) : Prop :=
  s !! "just_finished" = Some (PyBool true) -> delivered s.

(** Counting the quality evaluations since the last user input. *)
Definition count_evaluation (n : nat) (e : Event) : nat :=
  match e with
  | EInput _ => 0%nat
  | EQualityEval _ => S n
  | _ => n
  end.

Definition evaluations_since_input (evs : list Event) : nat :=
  fold_left count_evaluation evs 0%nat.

Definition asks_orchestrator (evs : list Event) : Prop :=
  exists q h, In (EOrchestrate q h) evs.

(** The polarity scores of the articles of the test. *)
Definition test_sentiment_scores : list Q :=
  map (score_of (L := reference_library)) test_sentiment_texts.

(** The six keys of the dictionary [get_company_leadership] builds. *)
Definition leadership_keys : list string :=
  ["CEO"; "Company"; "Industry"; "Sector"; "Full Time Employees"; "Website"].

(** A run that reaches the bound on evaluations: after the user's input the
    stock agent finishes, and the quality evaluation asks for more four
    times. *)
Definition world_user_asks : World :=
  mkWorld "What is the price of Salesforce?" "Please also research the company."
    "stock_lookup" ["CRM"] ["CRM trades at 250.00"] no_truncation.

Definition worlds_four_evaluations : list World :=
  [world_stock_done; world_company_asks; world_company_asks; world_company_asks;
   world_user_asks; world_company_asks; world_company_asks; world_company_asks;
   world_company_asks].

(** * Properties *)

(** ** The state dictionary *)

Example initial_state_current_agent :
  get_initial_state !! "current_agent" = Some PyNone.
Proof. reflexivity. Qed.

Example stock_done_example :
  stock_done "CRM" get_initial_state !! "ticker" = Some (PyStr "CRM").
Proof. reflexivity. Qed.

(** A no-break space, U+00A0, after the name. *)
Example strip_no_break_space :
  strip (" concierge" ++ String (ascii_of_nat 194) (String (ascii_of_nat 160) ""))
  = "concierge".
Proof. reflexivity. Qed.

(** An ideographic space, U+3000, before the name, and a byte of its
    encoding that stays where it is part of another character. *)
Example strip_ideographic_space :
  strip (String (ascii_of_nat 227) (String (ascii_of_nat 128) (String (ascii_of_nat 128)
           (String (ascii_of_nat 227) (String (ascii_of_nat 128) (String (ascii_of_nat 129)
              "stock_lookup"))))))
  = String (ascii_of_nat 227) (String (ascii_of_nat 128) (String (ascii_of_nat 129)
      "stock_lookup")).
Proof. reflexivity. Qed.

Example strip_example : strip "  concierge  " = "concierge".
Proof. reflexivity. Qed.

Example contains_example : contains "no_further_task" "ok: no_further_task." = true.
Proof. reflexivity. Qed.

(** Every [done] tool is the same three assignments, on the key its agent
    owns. *)
Lemma done_tool_shape c f :
  done_tool c = Some f ->
  exists key, owned_key c = Some key /\
    forall payload s,
      f payload s =
      setitem "just_finished" (PyBool true)
        (setitem "current_agent" PyNone (setitem key (PyStr payload) s)).
Proof.
  destruct c; intros [= <-]; eexists; (split; [reflexivity | done]).
Qed.

Lemma owned_key_not_control c key :
  owned_key c = Some key -> key <> "current_agent" /\ key <> "just_finished".
Proof. destruct c; intros [= <-]; done. Qed.

Lemma done_tool_owned c f : done_tool c = Some f -> is_Some (owned_key c).
Proof. destruct c; intros [= <-]; eauto. Qed.

(** What a [done] call leaves in the three keys it writes. *)
Lemma done_writes c f key payload (s : State) :
  done_tool c = Some f -> owned_key c = Some key ->
  f payload s !! key = Some (PyStr payload) /\
  f payload s !! "current_agent" = Some PyNone /\
  f payload s !! "just_finished" = Some (PyBool true).
Proof.
  intros Hf Hk. destruct (done_tool_shape c f Hf) as (key' & Hk' & Heq).
  assert (key' = key) as -> by congruence.
  destruct (owned_key_not_control c key Hk) as [Hc Hj].
  rewrite Heq. unfold setitem. by simplify_map_eq.
Qed.

(** Every other key is left as it was. *)
Lemma done_frame c f key payload (s : State) k :
  done_tool c = Some f -> owned_key c = Some key ->
  k <> key -> k <> "current_agent" -> k <> "just_finished" ->
  f payload s !! k = s !! k.
Proof.
  intros Hf Hk ? ? ?. destruct (done_tool_shape c f Hf) as (key' & Hk' & Heq).
  assert (key' = key) as -> by congruence.
  rewrite Heq. unfold setitem. by simplify_map_eq.
Qed.

(** Several [done] calls in a row also leave every other key as it was. *)
Lemma done_calls_frame c f key calls (s : State) k :
  done_tool c = Some f -> owned_key c = Some key ->
  k <> key -> k <> "current_agent" -> k <> "just_finished" ->
  fold_left (fun s p => f p s) calls s !! k = s !! k.
Proof.
  intros Hf Hk ? ? ?. revert s.
  induction calls as [|p calls IH]; intros s; simpl; [done|].
  rewrite IH. by eapply done_frame.
Qed.

(** ** The monad of the driver *)

Ltac unfold_M :=
  unfold mbind, M_bind, mret, M_ret, lift, emit, raise in *.

Lemma apply_done_calls_eq c f calls s :
  apply_done_calls c f calls s =
  (map (EDone c) calls, Ok (fold_left (fun s p => f p s) calls s)).
Proof.
  revert s. induction calls as [|p calls IH]; intros s; simpl; [done|].
  unfold_M. by rewrite IH.
Qed.

Lemma chat_eq c w message h s :
  chat c w message h s = (chat_events c w message h, Ok (chat_state c w s)).
Proof.
  unfold chat, chat_events, chat_state. unfold_M.
  destruct (done_tool c) as [f|]; [|done].
  by rewrite apply_done_calls_eq.
Qed.

(** ** The four branches that choose the message *)

Lemma py_eq_True_true v : py_eq_True v = true -> v = PyBool true.
Proof. destruct v as [|[]|]; simpl; congruence. Qed.

Lemma next_message_sound w d evs d' msg :
  next_message w d = (evs, Ok (d', msg)) -> NextMessage w d evs d' msg.
Proof.
  unfold next_message, getitem. unfold_M. simpl.
  destruct (first_run d) eqn:Hf.
  { intros [= <- <- <-]. by constructor. }
  destruct (is_retry d) eqn:Hr.
  { intros [= <- <- <-]. by constructor. }
  destruct (state d !! "just_finished") as [jf|] eqn:Hj; [|done].
  destruct (py_eq_True jf && (num_tries d + 1 <? 5)) eqn:Hc.
  - apply andb_prop in Hc as [Hjf Hn]. apply py_eq_True_true in Hjf as ->.
    apply Z.ltb_lt in Hn.
    destruct (current_history d) as [h|] eqn:Hh; [|done]. simpl.
    destruct (contains "no_further_task" (strip (w_quality w))) eqn:Hq;
      intros [= <- <- <-].
    + by apply NM_eval_no_further_task.
    + by apply NM_eval_follow_up.
  - simpl. intros [= <- <- <-]. by eapply NM_user_input.
Qed.

Lemma next_message_complete w d evs d' msg :
  NextMessage w d evs d' msg -> next_message w d = (evs, Ok (d', msg)).
Proof.
  unfold next_message, getitem. unfold_M.
  destruct 1 as [Hf|Hf Hr|h Hf Hr Hj Hn Hh Hq|h Hf Hr Hj Hn Hh Hq|jf Hf Hr Hj Hc];
    simpl; rewrite Hf; try rewrite Hr; try done.
  - rewrite Hj. simpl. apply Z.ltb_lt in Hn. rewrite Hn, Hh. simpl. by rewrite Hq.
  - rewrite Hj. simpl. apply Z.ltb_lt in Hn. rewrite Hn, Hh. simpl. by rewrite Hq.
  - rewrite Hj. simpl. by rewrite Hc.
Qed.

(** ** The rest of the pass *)

Lemma who_speaks_next_eq w (s : State) h msg ca :
  s !! "current_agent" = Some ca ->
  who_speaks_next w s h msg = (speaker_events ca msg h, Ok (speaker_of w ca)).
Proof.
  intros Hca. unfold who_speaks_next, getitem, speaker_events, speaker_of.
  rewrite Hca. unfold_M. by destruct (truthy ca).
Qed.

Lemma speak_eq w d msg ca :
  state d !! "current_agent" = Some ca ->
  speak w d msg =
  let h := w_root_get w (root_memory d) in
  let v := speaker_of w ca in
  match select_agent v with
  | None => (speaker_events ca msg h, Ok (set_is_retry true (set_current_history h d)))
  | Some c =>
      let s := chat_state c w (setitem "current_agent" v (state d)) in
      ((speaker_events ca msg h ++ chat_events c w msg h)%list,
       if has_memory c
       then Ok (set_root_memory (w_memory w) (set_state s (set_current_history h d)))
       else Raise (AttributeError "memory"))
  end.
Proof.
  intros Hca. unfold speak. simpl.
  rewrite (who_speaks_next_eq _ _ _ _ ca Hca).
  unfold mbind at 1, M_bind at 1.
  destruct (select_agent (speaker_of w ca)) as [c|]; simpl.
  - rewrite chat_eq. unfold_M. destruct (has_memory c); simpl.
    + by rewrite app_nil_r.
    + by rewrite app_nil_r.
  - unfold_M. by rewrite app_nil_r.
Qed.

Lemma speak_no_key w d msg :
  state d !! "current_agent" = None ->
  speak w d msg = ([], Raise (KeyError "current_agent")).
Proof.
  intros Hca. unfold speak, who_speaks_next, getitem. simpl. rewrite Hca. done.
Qed.

Lemma iteration_eq w d evs d1 msg :
  next_message w d = (evs, Ok (d1, msg)) ->
  iteration w d = ((evs ++ events (speak w d1 msg))%list, outcome (speak w d1 msg)).
Proof.
  intros H. unfold iteration. rewrite H. unfold_M.
  by destruct (speak w d1 msg).
Qed.

Lemma iteration_raise w d evs x :
  next_message w d = (evs, Raise x) -> iteration w d = (evs, Raise x).
Proof. intros H. unfold iteration. by rewrite H. Qed.

(** ** The agent slot of reachable states *)

Lemma select_agent_truthy v c : select_agent v = Some c -> truthy v = true.
Proof.
  unfold select_agent, py_eq_agent. destruct v as [| |s]; [done..|].
  simpl. destruct s; [done|]. done.
Qed.

Lemma agent_slot_ok_initial : agent_slot_ok get_initial_state.
Proof. exists PyNone. split; [reflexivity | by left]. Qed.

Lemma agent_slot_ok_set (s : State) k v :
  k <> "current_agent" -> agent_slot_ok s -> agent_slot_ok (setitem k v s).
Proof.
  intros Hk (u & Hu & Hok). exists u. split; [|done].
  unfold setitem. by rewrite lookup_insert_ne.
Qed.

Lemma agent_slot_ok_next_message w d evs d' msg :
  NextMessage w d evs d' msg -> agent_slot_ok (state d) -> agent_slot_ok (state d').
Proof.
  destruct 1; simpl; intros Hok; try done.
  - by apply agent_slot_ok_set.
  - apply agent_slot_ok_initial.
Qed.

Lemma agent_slot_ok_chat c w (s : State) :
  agent_slot_ok s -> agent_slot_ok (chat_state c w s).
Proof.
  unfold chat_state. destruct (done_tool c) as [f|] eqn:Hf; [|done].
  destruct (done_tool_owned c f Hf) as [key Hk].
  generalize (w_done_calls w). intros calls. revert s.
  induction calls as [|p calls IH]; intros s Hok; simpl; [done|].
  apply IH. exists PyNone. split; [|by left].
  by destruct (done_writes c f key p s Hf Hk) as (_ & ? & _).
Qed.

Lemma agent_slot_ok_speak w d msg evs d' :
  speak w d msg = (evs, Ok d') -> agent_slot_ok (state d) -> agent_slot_ok (state d').
Proof.
  intros Hs Hok. destruct Hok as (ca & Hca & Hv).
  rewrite (speak_eq w d msg ca Hca) in Hs. simpl in Hs.
  destruct (select_agent (speaker_of w ca)) as [c|] eqn:Hsel.
  - destruct (has_memory c); [|done]. injection Hs as _ <-. simpl.
    apply agent_slot_ok_chat. exists (speaker_of w ca). split.
    + unfold setitem. by rewrite lookup_insert_eq.
    + right. by eapply select_agent_truthy.
  - injection Hs as _ <-. simpl. by exists ca.
Qed.

Lemma agent_slot_ok_iteration w d evs d' :
  iteration w d = (evs, Ok d') -> agent_slot_ok (state d) -> agent_slot_ok (state d').
Proof.
  intros Hi Hok.
  destruct (next_message w d) as [e1 [[d1 msg]|x]] eqn:Hnm.
  - rewrite (iteration_eq _ _ _ _ _ Hnm) in Hi.
    destruct (speak w d1 msg) as [e2 r] eqn:Hs. simpl in Hi.
    injection Hi as _ ->.
    eapply agent_slot_ok_speak; [exact Hs|].
    eapply agent_slot_ok_next_message; [|exact Hok].
    by apply next_message_sound.
  - by rewrite (iteration_raise _ _ _ _ Hnm) in Hi.
Qed.

Lemma agent_slot_ok_run_from ws d evs d' :
  run_from ws d = (evs, Ok d') -> agent_slot_ok (state d) -> agent_slot_ok (state d').
Proof.
  revert d evs. induction ws as [|w ws IH]; intros d evs; simpl.
  - unfold_M. by intros [= _ <-].
  - unfold mbind, M_bind.
    destruct (iteration w d) as [e1 [d1|x]] eqn:Hi; [|done].
    destruct (run_from ws d1) as [e2 r] eqn:Hr. intros [= _ ->] Hok.
    eapply IH; [exact Hr|]. by eapply agent_slot_ok_iteration.
Qed.

Lemma agent_slot_ok_run ws evs d :
  run ws = (evs, Ok d) -> agent_slot_ok (state d).
Proof.
  intros H. eapply agent_slot_ok_run_from; [exact H|]. apply agent_slot_ok_initial.
Qed.

(** The fast path, on any state whose slot tests true. *)
Lemma who_speaks_next_pinned w (s : State) h q v :
  s !! "current_agent" = Some v -> truthy v = true ->
  who_speaks_next w s h q = ([], Ok v).
Proof.
  intros Hv Ht. rewrite (who_speaks_next_eq _ _ _ _ v Hv).
  unfold speaker_events, speaker_of. by rewrite Ht.
Qed.

(** On any state at all whose slot holds the name of an agent, the fast
    path returns that name. *)
Lemma who_speaks_next_agent_name w (s : State) h q a :
  s !! "current_agent" = Some (PyStr (value a)) ->
  who_speaks_next w s h q = ([], Ok (PyStr (value a))).
Proof. intros Hs. apply who_speaks_next_pinned; [done|]. by destruct a. Qed.

(** C1. Turn affinity.  Take any state the driver resolves the next speaker
    on: the state of a pass of any run, after the pass chose its message.
    If [current_agent] is set in it (its value is not [None]), the
    resolution returns that value, whatever the user query, the chat
    history and the orchestrator's answer are, and logs no call of the
    orchestrator. *)
Theorem turn_affinity ws evs d w evs1 d1 msg v :
  run ws = (evs, Ok d) ->
  next_message w d = (evs1, Ok (d1, msg)) ->
  state d1 !! "current_agent" = Some v -> v <> PyNone ->
  forall w' h q, who_speaks_next w' (state d1) h q = ([], Ok v).
Proof.
  intros Hrun Hnm Hv Hne w' h q.
  apply who_speaks_next_pinned; [done|].
  assert (agent_slot_ok (state d1)) as (u & Hu & Hok).
  { eapply agent_slot_ok_next_message; [by apply next_message_sound|].
    by eapply agent_slot_ok_run. }
  assert (u = v) as -> by congruence. by destruct Hok.
Qed.

(** The stock agent finished, the company agent then asked back: on the third
    pass the company agent is still pinned and speaks again. *)
Lemma turn_affinity_witness :
  who_speaks_next world_concierge
    (state (driver_with_message world_company_asks
              (driver_after [world_stock_done; world_company_asks])))
    ["Hello"] "Forget it, tell me a joke." =
  ([], Ok (PyStr "company_research")).
Proof.
  eapply (turn_affinity [world_stock_done; world_company_asks] _ _
            world_company_asks).
  - vm_compute. reflexivity.
  - vm_compute. reflexivity.
  - vm_compute. reflexivity.
  - discriminate.
Defined.

(** ** Routing retries *)

Lemma invalid_decision_world_invalid : invalid_decision world_invalid.
Proof. reflexivity. Qed.

(** One pass with an invalid decision, entered through the first-run or the
    retry branch. *)
Lemma retry_pass w d ca :
  invalid_decision w ->
  state d !! "current_agent" = Some ca -> truthy ca = false ->
  first_run d = true \/ is_retry d = true ->
  exists q h d',
    iteration w d = ([EOrchestrate q h], Ok d') /\
    state d' = state d /\ is_retry d' = true /\ first_run d' = false.
Proof.
  intros Hinv Hca Ht Hbranch.
  assert (exists d1 msg, NextMessage w d [] d1 msg /\ state d1 = state d /\
                         first_run d1 = false) as (d1 & msg & Hnm & Hs1 & Hf1).
  { destruct (first_run d) eqn:Hf.
    - do 2 eexists. split; [by apply NM_first_run|done].
    - destruct Hbranch as [|Hr]; [done|].
      do 2 eexists. split; [by apply NM_retry|done]. }
  apply next_message_complete in Hnm.
  rewrite (iteration_eq _ _ _ _ _ Hnm).
  rewrite <- Hs1 in Hca. rewrite (speak_eq w d1 msg ca Hca). simpl.
  unfold speaker_of, speaker_events. rewrite Ht.
  unfold invalid_decision in Hinv. rewrite Hinv. simpl.
  do 3 eexists. split; [reflexivity|]. by rewrite <- Hs1.
Qed.

(** C2, amended.  Routing retries have no cap.  From a driver about to take
    the first-run or the retry branch with no agent pinned, any number of
    passes with an invalid decision all complete; each of them only asks the
    orchestrator again, none reads user input, the state is untouched and
    the driver ends up set to retry once more. *)
Theorem routing_retry_unbounded ws d ca :
  Forall invalid_decision ws ->
  state d !! "current_agent" = Some ca -> truthy ca = false ->
  first_run d = true \/ is_retry d = true ->
  exists evs d',
    run_from ws d = (evs, Ok d') /\
    Forall is_orchestrate evs /\ length evs = length ws /\
    ~ reads_user_input evs /\
    state d' = state d /\ (ws <> [] -> is_retry d' = true).
Proof.
  intros Hws. revert d. induction Hws as [|w ws Hw Hws IH]; intros d Hca Ht Hb.
  - exists [], d. simpl. repeat split; try done.
    intros [p []].
  - destruct (retry_pass w d ca Hw Hca Ht Hb) as (q & h & d1 & Hi & Hs & Hr & Hf).
    destruct (IH d1) as (evs & d' & Hrun & Hall & Hlen & Hno & Hs' & _).
    { by rewrite Hs. } { done. } { by right. }
    exists (EOrchestrate q h :: evs), d'. simpl. rewrite Hi.
    unfold mbind, M_bind. rewrite Hrun. repeat split.
    + constructor; [by exists q, h | done].
    + simpl. by rewrite Hlen.
    + intros [p [Hp|Hp]]; [done|]. apply Hno. by exists p.
    + congruence.
    + intros _. destruct ws as [|w' ws'].
      * simpl in Hrun. unfold_M. by injection Hrun as _ <-.
      * destruct (IH d1) as (? & ? & Hrun' & _ & _ & _ & _ & Hretry).
        { by rewrite Hs. } { done. } { by right. }
        rewrite Hrun in Hrun'. injection Hrun' as _ <-. by apply Hretry.
Qed.

(** Five invalid decisions from the start of the program. *)
Lemma routing_retry_unbounded_witness :
  exists evs d',
    run_from (replicate 5 world_invalid) initial_driver = (evs, Ok d') /\
    Forall is_orchestrate evs /\ length evs = 5%nat /\
    ~ reads_user_input evs /\
    state d' = state initial_driver /\
    (replicate 5 world_invalid <> [] -> is_retry d' = true).
Proof.
  apply (routing_retry_unbounded (replicate 5 world_invalid) initial_driver PyNone).
  - repeat constructor.
  - reflexivity.
  - reflexivity.
  - left. reflexivity.
Defined.

(** C2, as stated, fails: with cap 2, after three invalid decisions in a row
    the fourth pass asks the orchestrator again and reads no user input. *)
Lemma routing_retry_not_capped : ~ routing_retry_capped 2.
Proof.
  intros Hcap.
  destruct (Hcap (replicate 3 world_invalid) world_invalid) as [p Hp].
  - reflexivity.
  - repeat constructor.
  - assert (events (run (replicate 3 world_invalid ++ [world_invalid])) =
            [EOrchestrate "Hello" []; EOrchestrate retry_message [];
             EOrchestrate retry_message []; EOrchestrate retry_message []]) as Hev
      by (vm_compute; reflexivity).
    rewrite Hev in Hp. simpl in Hp. intuition discriminate.
Qed.

(** ** The shape of a pass *)

Lemma next_message_events w d evs r :
  next_message w d = (evs, r) -> Forall is_message_event evs.
Proof.
  unfold next_message, getitem. unfold_M. simpl.
  destruct (first_run d); [by intros [= <- _]|].
  destruct (is_retry d); [by intros [= <- _]|].
  destruct (state d !! "just_finished") as [jf|]; [|by intros [= <- _]].
  destruct (py_eq_True jf && (num_tries d + 1 <? 5)); simpl.
  - destruct (current_history d) as [h|]; [|by intros [= <- _]]. simpl.
    destruct (contains "no_further_task" (strip (w_quality w)));
      intros [= <- _]; repeat constructor.
  - intros [= <- _]. repeat constructor.
Qed.

(** A pass that completes either retries or dispatches an agent that has a
    [memory]. *)
Lemma iteration_ok_inv w d evs d' :
  iteration w d = (evs, Ok d') ->
  exists e1 d1 msg ca,
    NextMessage w d e1 d1 msg /\
    state d1 !! "current_agent" = Some ca /\
    let h := w_root_get w (root_memory d1) in
    let v := speaker_of w ca in
    (select_agent v = None /\
     evs = (e1 ++ speaker_events ca msg h)%list /\
     d' = set_is_retry true (set_current_history h d1))
    \/
    (exists c,
       select_agent v = Some c /\ has_memory c = true /\
       evs = (e1 ++ speaker_events ca msg h ++ chat_events c w msg h)%list /\
       d' = set_root_memory (w_memory w)
              (set_state (chat_state c w (setitem "current_agent" v (state d1)))
                 (set_current_history h d1))).
Proof.
  intros Hi.
  destruct (next_message w d) as [e1 [[d1 msg]|x]] eqn:Hnm;
    [|by rewrite (iteration_raise _ _ _ _ Hnm) in Hi].
  rewrite (iteration_eq _ _ _ _ _ Hnm) in Hi.
  destruct (state d1 !! "current_agent") as [ca|] eqn:Hca;
    [|by rewrite (speak_no_key _ _ _ Hca) in Hi].
  rewrite (speak_eq _ _ _ ca Hca) in Hi. simpl in Hi.
  exists e1, d1, msg, ca. split; [by apply next_message_sound|]. split; [done|].
  simpl. destruct (select_agent (speaker_of w ca)) as [c|].
  - right. exists c. simpl in Hi. destruct (has_memory c); [|done].
    by injection Hi as <- <-.
  - left. simpl in Hi. by injection Hi as <- <-.
Qed.

Lemma chat_events_last c w msg h c' payload :
  last (chat_events c w msg h) = Some (EDone c' payload) ->
  c' = c /\ exists f calls, done_tool c = Some f /\ w_done_calls w = (calls ++ [payload])%list.
Proof.
  unfold chat_events. destruct (done_tool c) as [f|]; [|done].
  destruct (w_done_calls w) as [|q calls _] using rev_ind; [done|].
  rewrite map_app. simpl. rewrite app_comm_cons, last_snoc.
  intros [= <- <-]. split; [done|]. by exists f, calls.
Qed.

Lemma chat_events_nonempty c w msg h : last (chat_events c w msg h) <> None.
Proof. unfold chat_events. rewrite last_cons. by destruct (last _). Qed.

Lemma message_events_last_not_done e1 ca msg h c payload :
  Forall is_message_event e1 ->
  last (e1 ++ speaker_events ca msg h) <> Some (EDone c payload).
Proof.
  intros He1 Hl. apply last_Some_elem_of, elem_of_app in Hl as [Hl|Hl].
  - rewrite Forall_forall in He1. apply He1 in Hl. done.
  - unfold speaker_events in Hl. apply list_elem_of_In in Hl.
    destruct (truthy ca); simpl in Hl; intuition discriminate.
Qed.

(** C3. Completion atomicity.  Each of the four specialized agents has a
    [done] tool; a call of it leaves the payload in the agent's own key,
    [current_agent] at [None] and [just_finished] at [True]; and when a pass
    of the loop ends with a [done] call, the state the driver goes on with,
    the only one the next resolution of the speaker can read, has all three
    together. *)
Theorem completion_atomicity :
  (forall c, c <> ConciergeAgent ->
     exists f key, done_tool c = Some f /\ owned_key c = Some key) /\
  (forall c f key payload (s : State),
     done_tool c = Some f -> owned_key c = Some key ->
     f payload s !! key = Some (PyStr payload) /\
     f payload s !! "current_agent" = Some PyNone /\
     f payload s !! "just_finished" = Some (PyBool true)) /\
  (forall w d evs d' c payload,
     iteration w d = (evs, Ok d') ->
     last evs = Some (EDone c payload) ->
     exists key, owned_key c = Some key /\
       state d' !! key = Some (PyStr payload) /\
       state d' !! "current_agent" = Some PyNone /\
       state d' !! "just_finished" = Some (PyBool true)).
Proof.
  split; [|split].
  - intros [] Hc; try done; by do 2 eexists.
  - apply done_writes.
  - intros w d evs d' c payload Hi Hlast.
    destruct (iteration_ok_inv _ _ _ _ Hi)
      as (e1 & d1 & msg & ca & Hnm & Hca & [(Hsel & -> & ->)|(c0 & Hsel & Hm & -> & ->)]).
    + exfalso. eapply message_events_last_not_done; [|exact Hlast].
      eapply next_message_events. by apply next_message_complete.
    + rewrite app_assoc, last_app in Hlast.
      destruct (last (chat_events c0 w msg _)) as [e|] eqn:Hl;
        [|by apply chat_events_nonempty in Hl].
      injection Hlast as ->.
      apply chat_events_last in Hl as (-> & f & calls & Hf & Hcalls).
      destruct (done_tool_owned c0 f Hf) as [key Hk].
      exists key. split; [done|]. simpl.
      unfold chat_state. rewrite Hf, Hcalls, fold_left_app. simpl.
      by eapply done_writes.
Qed.

(** The first pass of a run in which the stock agent calls [done("CRM")]. *)
Lemma completion_atomicity_witness :
  exists key, owned_key StockAgent = Some key /\
    state (driver_after [world_stock_done]) !! key = Some (PyStr "CRM") /\
    state (driver_after [world_stock_done]) !! "current_agent" = Some PyNone /\
    state (driver_after [world_stock_done]) !! "just_finished" = Some (PyBool true).
Proof.
  destruct completion_atomicity as (_ & _ & Hpass).
  eapply (Hpass world_stock_done initial_driver).
  - vm_compute. reflexivity.
  - vm_compute. reflexivity.
Defined.

(** ** User input and the state reset *)

(** C4, amended.  A pass reads user input in two places.  With the prompt
    ["> "] (the final [else]) the state it goes on with is the fresh initial
    state; with the prompt [">> "] (the quality evaluation answered
    [no_further_task]) only [just_finished] is set to [False] and every other
    key keeps its value.  Both set [num_tries] to 0, and a pass that reads
    user input does so through one of the two. *)
Theorem user_input_resets w d evs d' msg :
  next_message w d = (evs, Ok (d', msg)) ->
  reads_user_input evs ->
  msg = strip (w_stdin w) /\ num_tries d' = 0 /\
  ((In (EInput "> ") evs /\ state d' = get_initial_state) \/
   (In (EInput ">> ") evs /\
    state d !! "just_finished" = Some (PyBool true) /\
    state d' = setitem "just_finished" (PyBool false) (state d) /\
    forall k, k <> "just_finished" -> state d' !! k = state d !! k)).
Proof.
  intros Hnm [p Hp]. apply next_message_sound in Hnm.
  destruct Hnm; simpl in Hp; try (intuition discriminate).
  - split; [done|]. split; [done|]. right. simpl. split; [by right; left|].
    split; [done|]. split; [done|].
    intros k Hk. unfold setitem. by rewrite lookup_insert_ne.
  - split; [done|]. split; [done|]. left. simpl. split; [by left | done].
Qed.

(** The second pass of a run: the stock agent has finished, the quality
    evaluation answers [no_further_task], the user is asked. *)
Lemma user_input_resets_witness :
  strip (w_stdin world_industry_done) = strip (w_stdin world_industry_done) /\
  num_tries (driver_with_message world_industry_done (driver_after [world_stock_done])) = 0 /\
  ((In (EInput "> ") [EQualityEval []; EInput ">> "] /\
    state (driver_with_message world_industry_done (driver_after [world_stock_done]))
    = get_initial_state) \/
   (In (EInput ">> ") [EQualityEval []; EInput ">> "] /\
    state (driver_after [world_stock_done]) !! "just_finished" = Some (PyBool true) /\
    state (driver_with_message world_industry_done (driver_after [world_stock_done]))
    = setitem "just_finished" (PyBool false) (state (driver_after [world_stock_done])) /\
    forall k, k <> "just_finished" ->
      state (driver_with_message world_industry_done (driver_after [world_stock_done])) !! k
      = state (driver_after [world_stock_done]) !! k)).
Proof.
  apply (user_input_resets world_industry_done (driver_after [world_stock_done])).
  - vm_compute. reflexivity.
  - exists ">> ". simpl. by right; left.
Defined.

(** C4, as stated, fails: after the stock agent finished with ticker [CRM]
    and the quality evaluation answered [no_further_task], the pass reads
    user input and keeps the ticker. *)
Lemma user_input_without_reset : ~ reset_on_every_user_input.
Proof.
  intros Hreset.
  assert (state (driver_with_message world_industry_done
                   (driver_after [world_stock_done])) = get_initial_state) as Heq.
  { eapply (Hreset [world_stock_done] _ _ world_industry_done).
    - vm_compute. reflexivity.
    - vm_compute. reflexivity.
    - exists ">> ". simpl. by right; left. }
  assert (state (driver_with_message world_industry_done
                   (driver_after [world_stock_done])) !! "ticker"
          = Some (PyStr "CRM")) as Ht by (vm_compute; reflexivity).
  rewrite Heq in Ht. discriminate Ht.
Qed.

(** ** The quality evaluation and [just_finished] *)

(** Nothing in the rest of a pass sets [just_finished] back to [False]. *)
Lemma just_finished_survives_chat c w (s : State) :
  s !! "just_finished" = Some (PyBool true) ->
  chat_state c w s !! "just_finished" = Some (PyBool true).
Proof.
  unfold chat_state. destruct (done_tool c) as [f|] eqn:Hf; [|done].
  destruct (done_tool_owned c f Hf) as [key Hk].
  generalize (w_done_calls w). intros calls. revert s.
  induction calls as [|p calls IH]; intros s Hs; simpl; [done|].
  apply IH. by destruct (done_writes c f key p s Hf Hk) as (_ & _ & ?).
Qed.

Lemma just_finished_survives_speak w d msg evs d' :
  speak w d msg = (evs, Ok d') ->
  state d !! "just_finished" = Some (PyBool true) ->
  state d' !! "just_finished" = Some (PyBool true).
Proof.
  intros Hs Hj.
  destruct (state d !! "current_agent") as [ca|] eqn:Hca;
    [|by rewrite (speak_no_key _ _ _ Hca) in Hs].
  rewrite (speak_eq _ _ _ ca Hca) in Hs. simpl in Hs.
  destruct (select_agent (speaker_of w ca)) as [c|].
  - destruct (has_memory c); [|done]. injection Hs as _ <-. simpl.
    apply just_finished_survives_chat. unfold setitem. by rewrite lookup_insert_ne.
  - by injection Hs as _ <-.
Qed.

(** C5, amended.  After a quality evaluation that answers [no_further_task],
    [just_finished] is [False] in the state the pass dispatches on.  After
    one that answers with a follow-up task, the follow-up is the message of
    the pass, the state is the one before the evaluation, and
    [just_finished] is still [True] in it, and still [True] when the pass
    ends. *)
Theorem evaluation_and_flag w d evs d' msg :
  next_message w d = (evs, Ok (d', msg)) ->
  evaluates evs ->
  (contains "no_further_task" (strip (w_quality w)) = true /\
   state d' !! "just_finished" = Some (PyBool false)) \/
  (contains "no_further_task" (strip (w_quality w)) = false /\
   msg = strip (w_quality w) /\
   state d' = state d /\
   state d' !! "just_finished" = Some (PyBool true) /\
   forall evs2 d2, speak w d' msg = (evs2, Ok d2) ->
     state d2 !! "just_finished" = Some (PyBool true)).
Proof.
  intros Hnm [h Hh]. apply next_message_sound in Hnm.
  destruct Hnm as [Hf|Hf Hr|h' Hf Hr Hj Hn Hh' Hq|h' Hf Hr Hj Hn Hh' Hq|jf Hf Hr Hj Hc];
    simpl in Hh.
  - done.
  - done.
  - left. split; [done|]. simpl. unfold setitem. by rewrite lookup_insert_eq.
  - right. repeat split; try done.
    intros evs2 d2 Hs. by eapply just_finished_survives_speak.
  - by destruct Hh.
Qed.

(** The second pass of a run: the stock agent has finished and the quality
    evaluation asks for company research. *)
Lemma evaluation_and_flag_witness :
  (contains "no_further_task" (strip (w_quality world_company_asks)) = true /\
   state (driver_with_message world_company_asks (driver_after [world_stock_done]))
     !! "just_finished" = Some (PyBool false)) \/
  (contains "no_further_task" (strip (w_quality world_company_asks)) = false /\
   "Please also research the company." = strip (w_quality world_company_asks) /\
   state (driver_with_message world_company_asks (driver_after [world_stock_done]))
   = state (driver_after [world_stock_done]) /\
   state (driver_with_message world_company_asks (driver_after [world_stock_done]))
     !! "just_finished" = Some (PyBool true) /\
   forall evs2 d2,
     speak world_company_asks
       (driver_with_message world_company_asks (driver_after [world_stock_done]))
       "Please also research the company." = (evs2, Ok d2) ->
     state d2 !! "just_finished" = Some (PyBool true)).
Proof.
  apply (evaluation_and_flag world_company_asks (driver_after [world_stock_done])
           [EQualityEval []]).
  - vm_compute. reflexivity.
  - exists []. simpl. by left.
Defined.

(** C5, as stated, fails: when the quality evaluation answers with a
    follow-up task, [just_finished] is still [True] afterwards. *)
Lemma flag_kept_after_follow_up : ~ flag_cleared_after_every_evaluation.
Proof.
  intros Hclear.
  assert (state (driver_with_message world_company_asks
                   (driver_after [world_stock_done])) !! "just_finished"
          = Some (PyBool false)) as Hf.
  { eapply (Hclear [world_stock_done] _ _ world_company_asks).
    - vm_compute. reflexivity.
    - vm_compute. reflexivity.
    - exists []. simpl. by left. }
  assert (state (driver_with_message world_company_asks
                   (driver_after [world_stock_done])) !! "just_finished"
          = Some (PyBool true)) as Ht by (vm_compute; reflexivity).
  rewrite Hf in Ht. discriminate Ht.
Qed.

(** ** Who writes the result fields *)

Lemma result_field_not_control k :
  In k result_fields -> k <> "current_agent" /\ k <> "just_finished".
Proof. simpl. intros [<-|[<-|[<-|[]]]]; done. Qed.

Lemma chat_state_frame c w (s : State) k evs msg h :
  In k result_fields ->
  (forall c' p, In (EDone c' p) (evs ++ chat_events c w msg h) -> owned_key c' <> Some k) ->
  chat_state c w s !! k = s !! k.
Proof.
  intros Hk Hown. destruct (result_field_not_control k Hk) as [Hc Hj].
  unfold chat_state. destruct (done_tool c) as [f|] eqn:Hf; [|done].
  destruct (done_tool_owned c f Hf) as [key Hkey].
  destruct (w_done_calls w) as [|p calls] eqn:Hcalls; [done|].
  eapply done_calls_frame; try done.
  intros ->. apply (Hown c p); [|done].
  apply in_or_app. right. unfold chat_events. rewrite Hf, Hcalls. simpl. by right; left.
Qed.

(** C6. Result monotonicity.  A [done] call of an agent leaves every result
    field the agent does not own as it was.  And over a whole pass of the
    loop that does not reset the state (it does not read user input with the
    prompt ["> "]), a result field keeps its value unless the pass logs a
    [done] call of the field's owner. *)
Theorem result_monotonicity :
  (forall c f payload (s : State) k,
     done_tool c = Some f -> In k result_fields -> owned_key c <> Some k ->
     f payload s !! k = s !! k) /\
  (forall w d evs d' k,
     iteration w d = (evs, Ok d') ->
     ~ In (EInput "> ") evs ->
     In k result_fields ->
     (forall c p, In (EDone c p) evs -> owned_key c <> Some k) ->
     state d' !! k = state d !! k).
Proof.
  split.
  - intros c f payload s k Hf Hk Hown.
    destruct (done_tool_owned c f Hf) as [key Hkey].
    destruct (result_field_not_control k Hk) as [Hc Hj].
    eapply done_frame; try done. congruence.
  - intros w d evs d' k Hi Hnoreset Hk Hown.
    destruct (result_field_not_control k Hk) as [Hc Hj].
    destruct (iteration_ok_inv _ _ _ _ Hi)
      as (e1 & d1 & msg & ca & Hnm & Hca & Hcases).
    assert (state d1 !! k = state d !! k) as Hd1.
    { destruct Hnm; simpl; try done.
      - unfold setitem. by rewrite lookup_insert_ne.
      - exfalso. apply Hnoreset.
        destruct Hcases as [(_ & -> & _)|(? & _ & _ & -> & _)]; simpl; by left. }
    destruct Hcases as [(_ & _ & ->)|(c & Hsel & Hm & -> & ->)]; simpl; [done|].
    rewrite <- Hd1.
    rewrite (chat_state_frame c w _ k
               (e1 ++ speaker_events ca msg (w_root_get w (root_memory d1)))
               msg (w_root_get w (root_memory d1)) Hk).
    + unfold setitem. by rewrite lookup_insert_ne.
    + intros c' p Hin. apply (Hown c' p).
      rewrite app_assoc. exact Hin.
Qed.

(** The company agent finishes on the first pass and the industry agent on
    the second: the company research is still the report. *)
Lemma result_monotonicity_witness :
  state (driver_after [world_company_done; world_industry_done]) !! "company_research"
  = state (driver_after [world_company_done]) !! "company_research".
Proof.
  destruct result_monotonicity as [_ Hpass].
  eapply (Hpass world_industry_done (driver_after [world_company_done])).
  - vm_compute. reflexivity.
  - simpl. intuition discriminate.
  - simpl. by left.
  - simpl. intros c p [H|[H|[H|[H|[H|[]]]]]]; try discriminate H.
    injection H as <- <-. discriminate.
Defined.

Example company_research_kept :
  state (driver_after [world_company_done; world_industry_done]) !! "company_research"
  = Some (PyStr "Salesforce sells CRM software.").
Proof. vm_compute. reflexivity. Qed.

(** ** The concierge *)

(** C10. A pass in which the concierge agent is dispatched (its [chat] is
    called) does not complete: it raises [AttributeError] for [memory], and
    that [chat] is the last thing the pass did.  The concierge is the only
    agent class without [memory]. *)
Theorem concierge_dispatch_fails w d evs r message h :
  iteration w d = (evs, r) ->
  In (EChat ConciergeAgent message h) evs ->
  r = Raise (AttributeError "memory") /\
  last evs = Some (EChat ConciergeAgent message h) /\
  forall c, has_memory c = false <-> c = ConciergeAgent.
Proof.
  intros Hi Hin.
  assert (forall c, has_memory c = false <-> c = ConciergeAgent) as Hmem
    by (intros []; split; done).
  destruct (next_message w d) as [e1 [[d1 msg]|x]] eqn:Hnm.
  - pose proof (next_message_events _ _ _ _ Hnm) as He1.
    rewrite (iteration_eq _ _ _ _ _ Hnm) in Hi.
    assert (~ In (EChat ConciergeAgent message h) e1) as Hne1.
    { intros Hc. rewrite Forall_forall in He1.
      by apply list_elem_of_In, He1 in Hc. }
    destruct (state d1 !! "current_agent") as [ca|] eqn:Hca.
    + rewrite (speak_eq _ _ _ ca Hca) in Hi. simpl in Hi.
      assert (~ In (EChat ConciergeAgent message h)
                (speaker_events ca msg (w_root_get w (root_memory d1)))) as Hne2.
      { unfold speaker_events. destruct (truthy ca); simpl; intuition discriminate. }
      destruct (select_agent (speaker_of w ca)) as [c|]; simpl in Hi.
      * injection Hi as <- <-.
        apply in_app_or in Hin as [Hin|Hin]; [done|].
        apply in_app_or in Hin as [Hin|Hin]; [done|].
        unfold chat_events in Hin. destruct Hin as [Hin|Hin].
        -- injection Hin as -> -> ->. simpl. split; [done|]. split; [|done].
           rewrite app_assoc. apply last_snoc.
        -- exfalso. destruct (done_tool c); [|done].
           apply in_map_iff in Hin as (? & ? & _). discriminate.
      * injection Hi as <- <-.
        apply in_app_or in Hin as [Hin|Hin]; done.
    + rewrite (speak_no_key _ _ _ Hca) in Hi. simpl in Hi. injection Hi as <- <-.
      rewrite app_nil_r in Hin. done.
  - pose proof (next_message_events _ _ _ _ Hnm) as He1.
    rewrite (iteration_raise _ _ _ _ Hnm) in Hi. injection Hi as <- <-.
    exfalso. rewrite Forall_forall in He1.
    by apply list_elem_of_In, He1 in Hin.
Qed.

(** The very first pass, when the orchestrator answers [concierge] to the
    greeting. *)
Lemma concierge_dispatch_fails_witness :
  outcome (run [world_concierge]) = Raise (AttributeError "memory") /\
  last (events (run [world_concierge])) = Some (EChat ConciergeAgent "Hello" []) /\
  forall c, has_memory c = false <-> c = ConciergeAgent.
Proof.
  apply (concierge_dispatch_fails world_concierge initial_driver).
  - vm_compute. reflexivity.
  - vm_compute. by right; left.
Defined.

(** ** The current stock price *)

Section ToolProperties.
Context {L : Library}.

(** On a response of the expected shape the price is the parsed string. *)
Lemma current_price_well_formed data quote p x :
  json_getitem data "Global Quote" = Ok quote ->
  json_getitem quote "05. price" = Ok (JStr p) ->
  float_of_str p = Some x ->
  get_current_stock_price data = Ok x.
Proof.
  intros Hq Hp Hx. unfold get_current_stock_price.
  rewrite Hq. simpl. rewrite Hp. simpl. by rewrite Hx.
Qed.

(** An object without the quote, or a quote without the price, raises
    [KeyError]; a response that is no object raises [TypeError]. *)
Lemma current_price_missing_quote members :
  assoc "Global Quote" members = None ->
  get_current_stock_price (JObj members) = Raise (KeyError "Global Quote").
Proof. intros H. unfold get_current_stock_price. simpl. by rewrite H. Qed.

Lemma current_price_missing_price members quote :
  assoc "Global Quote" members = Some (JObj quote) ->
  assoc "05. price" quote = None ->
  get_current_stock_price (JObj members) = Raise (KeyError "05. price").
Proof.
  intros H1 H2. unfold get_current_stock_price. simpl. rewrite H1. simpl.
  by rewrite H2.
Qed.

(** C9. What the code does on malformed responses: the answer to an unknown
    symbol (an empty quote) and an error answer both raise [KeyError], not
    the [ValueError] the docstring promises. *)
Theorem current_price_malformed_raises_KeyError :
  get_current_stock_price (JObj [("Global Quote", JObj [])])
  = Raise (KeyError "05. price") /\
  get_current_stock_price (JObj [("Error Message", JStr "Invalid API call.")])
  = Raise (KeyError "Global Quote") /\
  get_current_stock_price JNull = Raise TypeError.
Proof. by repeat split. Qed.

(** ** Sentiment analysis *)

Lemma article_polarity_has_text article text :
  has_text article text ->
  article_polarity article = Ok (score_of text).
Proof.
  intros (members & -> & Ht & Hd).
  unfold score_of, article_polarity. simpl. rewrite Ht. simpl. by rewrite Hd.
Qed.

Lemma article_polarities_has_text items texts :
  Forall2 has_text items texts ->
  article_polarities items = Ok (map score_of texts).
Proof.
  induction 1 as [|article text items texts Ha _ IH]; simpl; [done|].
  rewrite (article_polarity_has_text _ _ Ha). simpl. by rewrite IH.
Qed.

(** What [data[k]] can raise. *)
Lemma json_getitem_raises data k e :
  json_getitem data k = Raise e -> e = KeyError k \/ e = TypeError.
Proof.
  destruct data as [| | | | |members]; simpl; try (intros [= <-]; by right).
  destruct (assoc k members); [done|]. intros [= <-]. by left.
Qed.

(** The scores are computed exactly for the articles that have a title and
    a description; the first one that lacks either stops the loop. *)
Lemma article_polarity_cases article :
  (exists text, has_text article text /\
                article_polarity article = Ok (score_of text)) \/
  (exists e, article_polarity article = Raise e /\
             (e = KeyError "title" \/ e = KeyError "description" \/ e = TypeError)).
Proof.
  unfold article_polarity.
  destruct (json_getitem article "title") as [t|e] eqn:Ht; simpl.
  - destruct (json_getitem article "description") as [d|e] eqn:Hd; simpl.
    + left. exists (t, d). split; [|done].
      destruct article as [| | | | |members]; try done. simpl in Ht, Hd.
      exists members. split; [done|]. simpl.
      destruct (assoc "title" members); [|done].
      destruct (assoc "description" members); [|done].
      by injection Ht as ->; injection Hd as ->.
    + right. exists e. split; [done|].
      destruct (json_getitem_raises _ _ _ Hd) as [->| ->]; auto.
  - right. exists e. split; [done|].
    destruct (json_getitem_raises _ _ _ Ht) as [->| ->]; auto.
Qed.

Lemma article_polarities_cases items :
  (exists texts, Forall2 has_text items texts /\
                 article_polarities items = Ok (map score_of texts)) \/
  (exists e, article_polarities items = Raise e /\
             (e = KeyError "title" \/ e = KeyError "description" \/ e = TypeError)).
Proof.
  induction items as [|article items IH]; simpl.
  - left. exists []. by split; [constructor|].
  - destruct (article_polarity_cases article) as [(text & Ha & ->)|(e & -> & He)];
      simpl; [|right; by exists e].
    destruct IH as [(texts & Hall & ->)|(e & -> & He)]; simpl.
    + left. exists (text :: texts). by split; [constructor|].
    + right. by exists e.
Qed.

Lemma float_0_05_positive : (0 < float_0_05)%Q.
Proof. reflexivity. Qed.

(** What the tests of the buckets mean. *)
Lemma bucket_tests (s : Q) :
  (Qltb float_0_05 s = true <-> positive s) /\
  (Qle_bool (- float_0_05) s && Qle_bool s float_0_05 = true <-> neutral s) /\
  (Qltb s (- float_0_05) = true <-> negative s).
Proof.
  assert (forall x y, Qle_bool x y = false <-> (y < x)%Q) as Hnle.
  { intros x y. split.
    - intros H. apply Qnot_le_lt. rewrite <- Qle_bool_iff. congruence.
    - intros H. destruct (Qle_bool x y) eqn:E; [|done].
      apply Qle_bool_iff in E. lra. }
  unfold Qltb, positive, neutral, negative.
  rewrite andb_true_iff, !negb_true_iff, !Qle_bool_iff, !Hnle.
  tauto.
Qed.

(** Each score falls in exactly one of the three buckets. *)
Lemma one_bucket (s : Q) :
  ((if Qltb float_0_05 s then 1 else 0) +
   (if Qle_bool (- float_0_05) s && Qle_bool s float_0_05 then 1 else 0) +
   (if Qltb s (- float_0_05) then 1 else 0) = 1)%nat.
Proof.
  destruct (bucket_tests s) as (Hpos & Hneu & Hneg).
  pose proof float_0_05_positive as H0.
  unfold positive, neutral, negative in *.
  generalize dependent float_0_05. intros t Hpos Hneu Hneg H0.
  destruct (Qltb t s) eqn:E1;
    destruct (Qle_bool (- t) s && Qle_bool s t) eqn:E2;
    destruct (Qltb s (- t)) eqn:E3; simpl; try reflexivity; exfalso.
  - pose proof (proj1 Hpos eq_refl). pose proof (proj1 Hneu eq_refl). lra.
  - pose proof (proj1 Hpos eq_refl). pose proof (proj1 Hneu eq_refl). lra.
  - pose proof (proj1 Hpos eq_refl). pose proof (proj1 Hneg eq_refl). lra.
  - pose proof (proj1 Hneu eq_refl). pose proof (proj1 Hneg eq_refl). lra.
  - assert (~ (t < s)%Q) as N1 by (intros H; apply Hpos in H; congruence).
    assert (~ (s < - t)%Q) as N2 by (intros H; apply Hneg in H; congruence).
    assert (~ ((- t <= s)%Q /\ (s <= t)%Q)) as N3
      by (intros H; apply Hneu in H; congruence).
    destruct (Qlt_le_dec t s); [done|]. destruct (Qlt_le_dec s (- t)); [done|]. tauto.
Qed.

Lemma buckets_partition (l : list Q) :
  (count_if (fun s => Qltb float_0_05 s) l +
   count_if (fun s => Qle_bool (- float_0_05) s && Qle_bool s float_0_05) l +
   count_if (fun s => Qltb s (- float_0_05)) l = length l)%nat.
Proof.
  induction l as [|s l IH]; simpl; [done|].
  pose proof (one_bucket s). lia.
Qed.

(** The loop that counts the scores passing a test counts a class. *)
Lemma count_if_Count (P : Q -> Prop) (test : Q -> bool) (l : list Q) :
  (forall s, test s = true <-> P s) ->
  Count P l (count_if test l).
Proof.
  intros Htest. induction l as [|s l IH]; simpl; [constructor|].
  destruct (test s) eqn:E; simpl.
  - apply Count_in; [by apply Htest | done].
  - apply Count_out; [|done]. intros H. apply Htest in H. congruence.
Qed.

(** A class has one count. *)
Lemma Count_unique (P : Q -> Prop) (l : list Q) n m :
  Count P l n -> Count P l m -> n = m.
Proof.
  intros Hn. revert m. induction Hn as [|s l n Hs _ IH|s l n Hs _ IH]; intros m Hm.
  - by inversion Hm.
  - inversion Hm; subst; [f_equal; by apply IH | done].
  - inversion Hm; subst; [done | by apply IH].
Qed.

Lemma raise_for_status_ok response :
  status_code response < 400 \/ 600 <= status_code response ->
  raise_for_status response = Ok tt.
Proof.
  intros H. unfold raise_for_status.
  destruct (400 <=? status_code response) eqn:H1;
    destruct (status_code response <? 600) eqn:H2; simpl; try done.
  apply Z.leb_le in H1. apply Z.ltb_lt in H2. lia.
Qed.

Lemma article_polarities_length items l :
  article_polarities items = Ok l -> length l = length items.
Proof.
  revert l. induction items as [|a items IH]; intros l; simpl.
  - by intros [= <-].
  - destruct (article_polarity a) as [q|]; [|done]. simpl.
    destruct (article_polarities items) as [rest|]; [|done]. simpl.
    intros [= <-]. simpl. f_equal. by apply IH.
Qed.

(** Whatever the response is, a record that is returned counts at least one
    article and its three counts add up to [article_count]. *)
Lemma sentiment_counts_add_up response r :
  get_sentiment_analysis response = Ok r ->
  (0 < article_count r)%nat /\
  (positive_articles r + neutral_articles r + negative_articles r
   = article_count r)%nat.
Proof.
  unfold get_sentiment_analysis.
  destruct (sentiment_body response) as [r'|[]] eqn:Hb; try done.
  intros [= <-]. unfold sentiment_body in Hb.
  destruct (raise_for_status response); [|done]. simpl in Hb.
  destruct (json_get (body response) "articles" (JArr [])) as [articles|]; [|done].
  simpl in Hb. destruct (json_truthy articles); [|done]. simpl in Hb.
  destruct (json_iter articles) as [items|]; [|done]. simpl in Hb.
  destruct (article_polarities items) as [scores|] eqn:Hs; [|done]. simpl in Hb.
  apply article_polarities_length in Hs.
  destruct (length scores) as [|n] eqn:Hn; [done|].
  injection Hb as <-. simpl. rewrite <- Hs.
  pose proof (buckets_partition scores) as Hp. rewrite Hn in Hp. lia.
Qed.

(** The record that is returned for articles with these texts. *)
Lemma sentiment_body_returns response a items texts :
  status_code response < 400 \/ 600 <= status_code response ->
  json_get (body response) "articles" (JArr []) = Ok (JArr (a :: items)) ->
  Forall2 has_text (a :: items) texts ->
  sentiment_body response =
  Ok {| overall_sentiment :=
          float_div (float_sum (map score_of texts))
            (inject_Z (Z.of_nat (length (map score_of texts))));
        positive_articles := count_if (fun s => Qltb float_0_05 s) (map score_of texts);
        neutral_articles :=
          count_if (fun s => Qle_bool (- float_0_05) s && Qle_bool s float_0_05)
            (map score_of texts);
        negative_articles := count_if (fun s => Qltb s (- float_0_05)) (map score_of texts);
        article_count := length (a :: items) |}.
Proof.
  intros Hstatus Hget Htexts. unfold sentiment_body.
  rewrite (raise_for_status_ok _ Hstatus). simpl. rewrite Hget. simpl.
  pose proof (article_polarities_has_text _ _ Htexts) as Hscores.
  simpl in Hscores. rewrite Hscores. simpl.
  inversion Htexts as [|? text ? texts' _ _]; subst. reflexivity.
Qed.

(** C7. Sentiment postcondition.  Take a response that is no HTTP error and
    whose body holds the article list [items] (an absent ["articles"] member
    counts as the empty list).  If [items] is empty the call raises
    [ValueError], reporting that no news articles were found.  If it is not
    empty and every article has a title and a description, the call returns
    a record in which [article_count] is the number of articles;
    [overall_sentiment] is the float quotient of the float sum of the
    articles' polarity scores by their number, which is their arithmetic
    mean whenever that sum and that quotient are exact; the three counts are
    the numbers of scores above 0.05, from -0.05 to 0.05, and below -0.05;
    and the counts add up to [article_count].  If some article lacks a title
    or a description, or is no dictionary, the call raises [ValueError]
    instead of returning a record. *)
Theorem sentiment_postcondition response items :
  status_code response < 400 \/ 600 <= status_code response ->
  json_get (body response) "articles" (JArr []) = Ok (JArr items) ->
  (items = [] ->
   get_sentiment_analysis response =
   Raise (ValueError "Error performing sentiment analysis: "
            (Some (ValueError "No news articles found for the query" None)))) /\
  (forall texts,
     items <> [] -> Forall2 has_text items texts ->
     let scores := map score_of texts in
     let n := inject_Z (Z.of_nat (length items)) in
     exists r,
       get_sentiment_analysis response = Ok r /\
       article_count r = length items /\
       overall_sentiment r = float_div (float_sum scores) n /\
       ((float_sum scores == Qsum scores)%Q ->
        (float_div (float_sum scores) n == float_sum scores / n)%Q ->
        (overall_sentiment r == mean scores)%Q) /\
       Count positive scores (positive_articles r) /\
       Count neutral scores (neutral_articles r) /\
       Count negative scores (negative_articles r) /\
       (positive_articles r + neutral_articles r + negative_articles r
        = article_count r)%nat) /\
  (items <> [] -> (forall texts, ~ Forall2 has_text items texts) ->
   exists cause,
     get_sentiment_analysis response =
     Raise (ValueError "Error performing sentiment analysis: " (Some cause)) /\
     (cause = KeyError "title" \/ cause = KeyError "description" \/
      cause = TypeError)).
Proof.
  intros Hstatus Hget. split; [|split].
  - intros ->. unfold get_sentiment_analysis, sentiment_body.
    rewrite (raise_for_status_ok _ Hstatus). simpl. rewrite Hget. done.
  - intros texts Hne Htexts scores n.
    destruct items as [|a items]; [done|].
    assert (length scores = length (a :: items)) as Hlen.
    { unfold scores. rewrite length_map. symmetry.
      by apply (Forall2_length _ _ _ Htexts). }
    unfold get_sentiment_analysis.
    rewrite (sentiment_body_returns _ _ _ _ Hstatus Hget Htexts).
    fold scores. rewrite Hlen. fold n.
    eexists. split; [reflexivity|]. cbn [article_count overall_sentiment
      positive_articles neutral_articles negative_articles].
    split; [done|]. split; [done|].
    split; [|split; [|split; [|split]]].
    + intros Hsum Hdiv. rewrite Hdiv, Hsum. unfold mean. by rewrite Hlen.
    + apply count_if_Count. intros s. apply bucket_tests.
    + apply count_if_Count. intros s. apply bucket_tests.
    + apply count_if_Count. intros s. apply bucket_tests.
    + rewrite <- Hlen. apply buckets_partition.
  - intros Hne Hnone.
    destruct (article_polarities_cases items) as [(texts & Htexts & _)|(e & He & Hcause)];
      [by destruct (Hnone texts)|].
    exists e. split; [|done].
    unfold get_sentiment_analysis, sentiment_body.
    rewrite (raise_for_status_ok _ Hstatus). simpl. rewrite Hget. simpl.
    destruct items as [|a items]; [done|]. simpl json_truthy. simpl negb.
    cbv iota. rewrite He. simpl.
    by destruct Hcause as [->|[->| ->]].
Qed.

(** ** Historical prices *)

Lemma entries_in_range_In s e series entry :
  In entry (entries_in_range s e series) ->
  In entry series /\ in_range s e (fst entry) = true.
Proof.
  induction series as [|x series IH]; simpl; [done|].
  destruct (in_range s e (fst x)) eqn:Hx; simpl.
  - intros [<-|H]; [by split; [left|]|]. destruct (IH H). by split; [right|].
  - intros H. destruct (IH H). by split; [right|].
Qed.

Lemma collect_prices_sound s e series l :
  collect_prices s e series = Ok l ->
  Forall2 priced (entries_in_range s e series) l.
Proof.
  revert l. induction series as [|[date_str values] series IH]; intros l; simpl.
  - intros [= <-]. constructor.
  - unfold in_range, py_strptime. simpl.
    destruct (strptime date_str) as [t|]; [|done]. simpl.
    destruct ((s <=? t) && (t <=? e)); [|by apply IH].
    destruct (json_getitem values "4. close") as [close|] eqn:Hc; [|done]. simpl.
    destruct (py_float close) as [x|] eqn:Hx; [|done]. simpl.
    destruct (collect_prices s e series) as [rest|]; [|done]. simpl.
    intros [= <-]. constructor; [|by apply IH].
    split; [done|]. by exists close.
Qed.



Lemma insert_by_date_perm x l : Permutation (x :: l) (insert_by_date x l).
Proof.
  induction l as [|y l IH]; simpl; [done|].
  destruct (String.leb (date x) (date y)); [done|].
  rewrite <- IH. apply perm_swap.
Qed.

Lemma sorted_by_date_perm l : Permutation l (sorted_by_date l).
Proof.
  induction l as [|x l IH]; simpl; [done|].
  rewrite <- insert_by_date_perm. by constructor.
Qed.

Lemma insert_by_date_HdRel a x l :
  date_le a x -> HdRel date_le a l -> HdRel date_le a (insert_by_date x l).
Proof.
  intros Hax Hal. destruct l as [|y l]; simpl; [by constructor|].
  destruct (String.leb (date x) (date y)); constructor; [done|].
  by inversion Hal.
Qed.

Lemma insert_by_date_sorted x l :
  Sorted date_le l -> Sorted date_le (insert_by_date x l).
Proof.
  induction 1 as [|y l Hl IH Hy]; simpl; [by repeat constructor|].
  destruct (String.leb (date x) (date y)) eqn:Hxy.
  - constructor; [by constructor|]. by constructor.
  - constructor; [done|]. apply insert_by_date_HdRel; [|done].
    unfold date_le. destruct (String.leb_total (date x) (date y)); congruence.
Qed.

Lemma sorted_by_date_sorted l : Sorted date_le (sorted_by_date l).
Proof.
  induction l as [|x l IH]; simpl; [constructor|]. by apply insert_by_date_sorted.
Qed.

(** The string order is transitive, so the sorted list is ascending between
    any two positions, not only neighbours. *)
Lemma string_leb_trans a : forall b c,
  String.leb a b = true -> String.leb b c = true -> String.leb a c = true.
Proof.
  unfold String.leb.
  induction a as [|x a IH]; intros [|y b] [|z c]; simpl; try done.
  unfold Ascii.compare.
  destruct (N.compare_spec (N_of_ascii x) (N_of_ascii y)) as [Hxy|Hxy|Hxy];
    destruct (N.compare_spec (N_of_ascii y) (N_of_ascii z)) as [Hyz|Hyz|Hyz];
    try done.
  - rewrite Hxy, Hyz, N.compare_refl. apply IH.
  - intros _ _. rewrite Hxy. by apply N.compare_lt_iff in Hyz as ->.
  - intros _ _. rewrite <- Hyz. by apply N.compare_lt_iff in Hxy as ->.
  - intros _ _. assert (N_of_ascii x < N_of_ascii z)%N as H by lia.
    by apply N.compare_lt_iff in H as ->.
Qed.

Lemma sorted_by_date_strongly_sorted l : StronglySorted date_le (sorted_by_date l).
Proof.
  apply Sorted_StronglySorted; [|apply sorted_by_date_sorted].
  intros p q r. unfold date_le. apply string_leb_trans.
Qed.


Lemma json_getitem_in data k v :
  json_getitem data k = Ok v -> json_in k data = Ok true.
Proof.
  destruct data; simpl; try done.
  destruct (assoc k members) eqn:Ha; [|done]. intros _. reflexivity.
Qed.


Lemma Forall2_In_right {A B : Type} (R : A -> B -> Prop) l1 l2 y :
  Forall2 R l1 l2 -> In y l2 -> exists x, In x l1 /\ R x y.
Proof.
  induction 1 as [|x y' l1 l2 Hxy _ IH]; simpl; [done|].
  intros [<-|Hy].
  - exists x. by split; [left|].
  - destruct (IH Hy) as (x' & ? & ?). exists x'. by split; [right|].
Qed.

(** Every returned point comes from an entry of the series whose date lies
    in the range. *)
Lemma returned_point_in_range s e series l out p :
  Forall2 priced (entries_in_range s e series) l -> Permutation l out ->
  In p out ->
  In (date p) (map fst series) /\
  exists t, strptime (date p) = Some t /\ s <= t <= e.
Proof.
  intros Hl Hperm Hp.
  apply (Permutation_in _ (Permutation_sym Hperm)) in Hp.
  destruct (Forall2_In_right _ _ _ _ Hl Hp) as (entry & Hentry & Hdate & _).
  apply entries_in_range_In in Hentry as [Hin Hrange].
  rewrite Hdate. split; [by apply in_map|].
  unfold in_range in Hrange. destruct (strptime (fst entry)) as [t|]; [|done].
  exists t. split; [done|]. apply andb_prop in Hrange as [H1 H2].
  apply Z.leb_le in H1, H2. done.
Qed.


End ToolProperties.

(** ** The tools on the data of the repository's tests *)

Lemma sentiment_postcondition_witness :
  exists r,
    get_sentiment_analysis (L := reference_library) test_sentiment_response = Ok r /\
    article_count r = length test_sentiment_articles /\
    overall_sentiment r =
      exact_div (exact_sum test_sentiment_scores)
        (inject_Z (Z.of_nat (length test_sentiment_articles))) /\
    ((exact_sum test_sentiment_scores == Qsum test_sentiment_scores)%Q ->
     (exact_div (exact_sum test_sentiment_scores)
        (inject_Z (Z.of_nat (length test_sentiment_articles)))
      == exact_sum test_sentiment_scores
         / inject_Z (Z.of_nat (length test_sentiment_articles)))%Q ->
     (overall_sentiment r == mean test_sentiment_scores)%Q) /\
    Count positive test_sentiment_scores (positive_articles r) /\
    Count neutral test_sentiment_scores (neutral_articles r) /\
    Count negative test_sentiment_scores (negative_articles r) /\
    (positive_articles r + neutral_articles r + negative_articles r
     = article_count r)%nat.
Proof.
  destruct (sentiment_postcondition (L := reference_library)
              test_sentiment_response test_sentiment_articles) as (_ & H & _).
  - left. simpl. lia.
  - reflexivity.
  - apply (H test_sentiment_texts); [discriminate|].
    repeat constructor; eexists; repeat split; reflexivity.
Defined.

(** On the response of the test the scores are 3/4 and -1/2, their sum and
    its half are exact, and the overall sentiment is their mean, 1/8. *)
Example sentiment_of_test_articles :
  exists r,
    get_sentiment_analysis (L := reference_library) test_sentiment_response = Ok r /\
    (overall_sentiment r == 1 # 8)%Q /\
    (overall_sentiment r == mean test_sentiment_scores)%Q /\
    positive_articles r = 1%nat /\ neutral_articles r = 0%nat /\
    negative_articles r = 1%nat /\ article_count r = 2%nat.
Proof. eexists. split; [vm_compute; reflexivity|]. by repeat split. Qed.

(** An article without a title: the list of fetched articles is not empty,
    and no record is returned. *)
Lemma sentiment_fails_without_title :
  ~ returns_for_every_article_list (L := reference_library).
Proof.
  intros H.
  destruct (H (mkResponse 200
                 (JObj [("articles",
                         JArr [JObj [("description", JStr "Apple stock is rising.")]])]))
              [JObj [("description", JStr "Apple stock is rising.")]])
    as (r & Hr & _).
  - left. simpl. lia.
  - reflexivity.
  - discriminate.
  - discriminate Hr.
Qed.

Example sentiment_without_articles :
  get_sentiment_analysis (L := reference_library)
    (mkResponse 200 (JObj [("status", JStr "ok"); ("articles", JArr [])])) =
  Raise (ValueError "Error performing sentiment analysis: "
           (Some (ValueError "No news articles found for the query" None))).
Proof. reflexivity. Qed.

Example sentiment_http_error :
  get_sentiment_analysis (L := reference_library) (mkResponse 401 JNull) =
  Raise (ValueError "Error fetching news articles: " (Some (HTTPError 401))).
Proof. reflexivity. Qed.

(** *** The dates [strptime] accepts *)

Example strptime_accepts :
  python_strptime "2023-01-09" = Some 20230109 /\
  python_strptime "2023-1-9" = Some 20230109 /\
  python_strptime "2023-1-10" = Some 20230110 /\
  python_strptime "2023-01- 9" = Some 20230109 /\
  python_strptime "2024-02-29" = Some 20240229.
Proof. by repeat split. Qed.

Example strptime_refuses :
  python_strptime "2023-02-29" = None /\
  python_strptime "2023-13-01" = None /\
  python_strptime "2023-01-32" = None /\
  python_strptime "2023-01-00" = None /\
  python_strptime "0000-01-01" = None /\
  python_strptime "23-01-09" = None /\
  python_strptime "2023-001-09" = None /\
  python_strptime "2023-01-09 " = None /\
  python_strptime "2023/01/09" = None.
Proof. by repeat split. Qed.

(** *** Zero-padded dates *)

Lemma is_digit_spec c :
  is_digit c = true ->
  exists v, digit_of c = Some v /\ 0 <= v <= 9 /\ Z.of_N (N_of_ascii c) = 48 + v /\
            Ascii.eqb c "-" = false /\ Ascii.eqb c " " = false.
Proof.
  unfold is_digit. intros H. apply bool_decide_eq_true in H. destruct H as [v Hv].
  exists v. split; [done|]. unfold digit_of in Hv.
  destruct (48 <=? Z.of_N (N_of_ascii c)) eqn:H1; [|done].
  destruct (Z.of_N (N_of_ascii c) <=? 57) eqn:H2; [|done].
  simpl in Hv. injection Hv as <-. apply Z.leb_le in H1. apply Z.leb_le in H2.
  split; [lia|]. split; [lia|].
  split; apply Ascii.eqb_neq; intros ->; simpl in *; lia.
Qed.

Lemma ascii_compare_digits c c' v v' :
  Z.of_N (N_of_ascii c) = 48 + v -> Z.of_N (N_of_ascii c') = 48 + v' ->
  Ascii.compare c c' = (v ?= v').
Proof.
  intros H H'. unfold Ascii.compare.
  rewrite <- N2Z.inj_compare, H, H'. apply Z.add_compare_mono_l.
Qed.

Lemma zero_padded_value s t :
  zero_padded s = true -> python_strptime s = Some t ->
  exists y1 y2 y3 y4 m1 m2 d1 d2 v1 v2 v3 v4 v5 v6 v7 v8,
    s = String y1 (String y2 (String y3 (String y4 (String "-" (String m1 (String m2
      (String "-" (String d1 (String d2 EmptyString))))))))) /\
    Z.of_N (N_of_ascii y1) = 48 + v1 /\ Z.of_N (N_of_ascii y2) = 48 + v2 /\
    Z.of_N (N_of_ascii y3) = 48 + v3 /\ Z.of_N (N_of_ascii y4) = 48 + v4 /\
    Z.of_N (N_of_ascii m1) = 48 + v5 /\ Z.of_N (N_of_ascii m2) = 48 + v6 /\
    Z.of_N (N_of_ascii d1) = 48 + v7 /\ Z.of_N (N_of_ascii d2) = 48 + v8 /\
    0 <= v1 <= 9 /\ 0 <= v2 <= 9 /\ 0 <= v3 <= 9 /\ 0 <= v4 <= 9 /\
    0 <= v5 <= 9 /\ 0 <= v6 <= 9 /\ 0 <= v7 <= 9 /\ 0 <= v8 <= 9 /\
    t = (1000 * v1 + 100 * v2 + 10 * v3 + v4) * 10000 + (10 * v5 + v6) * 100 + (10 * v7 + v8).
Proof.
  intros Hp Ht.
  destruct s as [|y1 [|y2 [|y3 [|y4 [|h1 [|m1 [|m2 [|h2 [|d1 [|d2 [|]]]]]]]]]]]; try done.
  simpl in Hp. repeat (apply andb_true_iff in Hp; destruct Hp as [Hp ?]).
  repeat match goal with H : is_digit _ = true |- _ =>
    apply is_digit_spec in H; destruct H as (? & ? & ? & ? & ? & ?) end.
  repeat match goal with H : Ascii.eqb _ "-" = true |- _ =>
    apply Ascii.eqb_eq in H; subst end.
  do 8 eexists. do 8 eexists. split; [reflexivity|].
  repeat (split; [eassumption|]).
  unfold python_strptime in Ht. cbn [split_at] in Ht.
  repeat match goal with H : Ascii.eqb _ _ = false |- _ => rewrite H in Ht end.
  change (Ascii.eqb "-" "-") with true in Ht. cbn iota beta in Ht.
  cbn [split_at] in Ht.
  repeat match goal with H : Ascii.eqb _ _ = false |- _ => rewrite H in Ht end.
  change (Ascii.eqb "-" "-") with true in Ht. cbn iota beta in Ht.
  cbn [String.length Nat.eqb] in Ht. cbn iota in Ht.
  unfold day_number, short_number in Ht.
  repeat match goal with H : Ascii.eqb _ _ = false |- _ => rewrite H in Ht end.
  cbn [String.length Nat.leb andb digits_value] in Ht.
  repeat match goal with H : digit_of _ = Some _ |- _ => rewrite H in Ht end.
  cbn [digits_value] in Ht.
  match type of Ht with (if ?b then _ else _) = _ => destruct b; [|done] end.
  injection Ht as <-. lia.
Qed.

Lemma zero_padded_order a b ta tb :
  zero_padded a = true -> zero_padded b = true ->
  python_strptime a = Some ta -> python_strptime b = Some tb ->
  String.leb a b = true -> ta <= tb.
Proof.
  intros Ha Hb Hta Htb Hle.
  destruct (zero_padded_value _ _ Ha Hta)
    as (y1 & y2 & y3 & y4 & m1 & m2 & d1 & d2 & v1 & v2 & v3 & v4 & v5 & v6 & v7 & v8
        & -> & E1 & E2 & E3 & E4 & E5 & E6 & E7 & E8
        & R1 & R2 & R3 & R4 & R5 & R6 & R7 & R8 & ->).
  destruct (zero_padded_value _ _ Hb Htb)
    as (y1' & y2' & y3' & y4' & m1' & m2' & d1' & d2'
        & w1 & w2 & w3 & w4 & w5 & w6 & w7 & w8
        & -> & F1 & F2 & F3 & F4 & F5 & F6 & F7 & F8
        & S1 & S2 & S3 & S4 & S5 & S6 & S7 & S8 & ->).
  unfold String.leb in Hle. cbn [String.compare] in Hle.
  rewrite (ascii_compare_digits _ _ _ _ E1 F1), (ascii_compare_digits _ _ _ _ E2 F2),
    (ascii_compare_digits _ _ _ _ E3 F3), (ascii_compare_digits _ _ _ _ E4 F4),
    (ascii_compare_digits _ _ _ _ E5 F5), (ascii_compare_digits _ _ _ _ E6 F6),
    (ascii_compare_digits _ _ _ _ E7 F7), (ascii_compare_digits _ _ _ _ E8 F8) in Hle.
  change (Ascii.compare "-" "-") with Eq in Hle. cbn iota in Hle.
  clear - Hle R1 R2 R3 R4 R5 R6 R7 R8 S1 S2 S3 S4 S5 S6 S7 S8.
  destruct (Z.compare_spec v1 w1); [|lia|done].
  destruct (Z.compare_spec v2 w2); [|lia|done].
  destruct (Z.compare_spec v3 w3); [|lia|done].
  destruct (Z.compare_spec v4 w4); [|lia|done].
  destruct (Z.compare_spec v5 w5); [|lia|done].
  destruct (Z.compare_spec v6 w6); [|lia|done].
  destruct (Z.compare_spec v7 w7); [|lia|done].
  destruct (Z.compare_spec v8 w8); [|lia|done].
  lia.
Qed.

(** On zero-padded dates the string order is the date order. *)
Lemma zero_padded_dates_agree series :
  Forall (fun entry => zero_padded (fst entry) = true) series ->
  string_order_is_date_order (L := reference_library) series.
Proof.
  intros Hpad a b ta tb Ha Hb Hta Htb Hle.
  rewrite List.Forall_forall in Hpad.
  apply in_map_iff in Ha. destruct Ha as (ea & <- & Ha).
  apply in_map_iff in Hb. destruct Hb as (eb & <- & Hb).
  exact (zero_padded_order _ _ _ _ (Hpad _ Ha) (Hpad _ Hb) Hta Htb Hle).
Qed.





Example historical_prices_of_test_series :
  get_historical_stock_prices (L := reference_library)
    test_historical_data "2023-01-01" "2023-01-02" = Ok test_historical_prices.
Proof. vm_compute. reflexivity. Qed.

Example historical_prices_empty_range :
  get_historical_stock_prices (L := reference_library)
    test_historical_data "2024-01-01" "2024-01-31" =
  Raise (ValueError "No historical prices found" None).
Proof. vm_compute. reflexivity. Qed.

Example current_price_of_test_quote :
  get_current_stock_price (L := reference_library)
    (JObj [("Global Quote", JObj [("05. price", JStr "150.00")])]) = Ok (150 # 1)%Q.
Proof. vm_compute. reflexivity. Qed.

(** * Further properties *)

(** ** Which answers dispatch an agent *)

Lemma select_agent_spec v c :
  select_agent v = Some c <-> v = PyStr (value (class_name c)).
Proof.
  split.
  - unfold select_agent, py_eq_agent. destruct v as [| |s]; simpl; [done..|].
    repeat match goal with
           | |- context [String.eqb s ?k] =>
               destruct (String.eqb_spec s k) as [->|?]; [by intros [= <-]|]
           end.
    done.
  - intros ->. by destruct c.
Qed.

(** X1. The chain of comparisons dispatches an agent exactly when the next
    speaker is one of the five names, letter for letter, and then the agent
    of that name; every other value, the name [orchestrator] among them,
    leads to the retry. *)
Theorem dispatch_exactly_on_agent_names :
  (forall v c, select_agent v = Some c <-> v = PyStr (value (class_name c))) /\
  (forall v, select_agent v = None <-> forall c, v <> PyStr (value (class_name c))) /\
  select_agent (PyStr (value ORCHESTRATOR)) = None /\
  (forall a, a <> ORCHESTRATOR -> exists c, select_agent (PyStr (value a)) = Some c).
Proof.
  split; [exact select_agent_spec|]. split; [|split; [done|]].
  - intros v. split.
    + intros Hnone c Hv. apply select_agent_spec in Hv. congruence.
    + intros Hv. destruct (select_agent v) as [c|] eqn:Hsel; [|done].
      apply select_agent_spec in Hsel. by destruct (Hv c).
  - intros [] Ha; try done; by eexists.
Qed.

(** ** What holds at the head of the loop *)

Lemma key_present (s : State) k :
  dom s = dom get_initial_state -> is_Some (get_initial_state !! k) -> is_Some (s !! k).
Proof. intros Hd Hk. apply elem_of_dom. rewrite Hd. by apply elem_of_dom. Qed.

Lemma dom_setitem (s : State) k v :
  dom s = dom get_initial_state -> is_Some (get_initial_state !! k) ->
  dom (setitem k v s) = dom get_initial_state.
Proof.
  intros Hd Hk. unfold setitem. rewrite dom_insert_lookup_L; [done|].
  by apply key_present.
Qed.

Lemma owned_key_initial c key :
  owned_key c = Some key -> is_Some (get_initial_state !! key).
Proof. destruct c; intros [= <-]; by eexists. Qed.

Lemma dom_done c f payload (s : State) :
  done_tool c = Some f -> dom s = dom get_initial_state ->
  dom (f payload s) = dom get_initial_state.
Proof.
  intros Hf Hd. destruct (done_tool_shape c f Hf) as (key & Hk & ->).
  repeat apply dom_setitem; try done; try by eexists.
  by eapply owned_key_initial.
Qed.

Lemma dom_chat_state c w (s : State) :
  dom s = dom get_initial_state -> dom (chat_state c w s) = dom get_initial_state.
Proof.
  unfold chat_state. destruct (done_tool c) as [f|] eqn:Hf; [|done].
  generalize (w_done_calls w). intros calls. revert s.
  induction calls as [|p calls IH]; intros s Hd; simpl; [done|].
  apply IH. by eapply dom_done.
Qed.

(** After its [done] calls an agent's slot is empty; without one it keeps
    what the driver put there. *)
Lemma chat_state_slot c w (s : State) v :
  s !! "current_agent" = Some v ->
  chat_state c w s !! "current_agent" = Some PyNone \/
  chat_state c w s !! "current_agent" = Some v.
Proof.
  intros Hs. unfold chat_state. destruct (done_tool c) as [f|] eqn:Hf; [|by right].
  destruct (done_tool_owned c f Hf) as [key Hk].
  destruct (w_done_calls w) as [|p calls _] using rev_ind; [by right|].
  left. rewrite fold_left_app. simpl.
  by destruct (done_writes c f key p (fold_left (fun s p => f p s) calls s) Hf Hk)
    as (_ & ? & _).
Qed.

Lemma driver_ok_initial : driver_ok initial_driver.
Proof. split; simpl; try done. by left. Qed.

(** The driver a pass goes on with once it has its message. *)
Lemma next_message_ok w d evs d1 msg :
  NextMessage w d evs d1 msg -> driver_ok d ->
  dom (state d1) = dom get_initial_state /\
  (state d1 !! "current_agent" = Some PyNone \/
   exists c, state d1 !! "current_agent" = Some (PyStr (value (class_name c)))) /\
  first_run d1 = false /\ is_retry d1 = false /\
  root_memory d1 = root_memory d /\
  (~ evaluates evs -> state d1 !! "current_agent" = Some PyNone).
Proof.
  intros Hnm [Hkeys Hslot Hfirst Hretry Hhist].
  destruct Hnm as [Hf|Hf Hr|h Hf Hr Hj Hn Hh Hq|h Hf Hr Hj Hn Hh Hq|jf Hf Hr Hj Hc];
    simpl.
  - destruct (Hfirst Hf) as [Hr Hnone]. by repeat split.
  - by repeat split; auto.
  - repeat split; try done.
    + apply dom_setitem; [done | by eexists].
    + unfold setitem. by rewrite lookup_insert_ne.
    + intros Hne. exfalso. apply Hne. exists h. by left.
  - repeat split; try done.
    intros Hne. exfalso. apply Hne. exists h. by left.
  - repeat split; try done. by left.
Qed.

Lemma speak_ok w d1 msg evs d' :
  dom (state d1) = dom get_initial_state ->
  (state d1 !! "current_agent" = Some PyNone \/
   exists c, state d1 !! "current_agent" = Some (PyStr (value (class_name c)))) ->
  first_run d1 = false -> is_retry d1 = false ->
  speak w d1 msg = (evs, Ok d') -> driver_ok d'.
Proof.
  intros Hkeys Hslot Hf Hr Hs.
  assert (exists ca, state d1 !! "current_agent" = Some ca) as [ca Hca]
    by (destruct Hslot as [?|[c ?]]; eauto).
  rewrite (speak_eq _ _ _ ca Hca) in Hs. simpl in Hs.
  destruct (select_agent (speaker_of w ca)) as [c|] eqn:Hsel.
  - destruct (has_memory c); [|done]. injection Hs as _ <-.
    apply select_agent_spec in Hsel.
    assert (setitem "current_agent" (speaker_of w ca) (state d1) !! "current_agent"
            = Some (speaker_of w ca)) as Hset
      by (unfold setitem; by rewrite lookup_insert_eq).
    split; simpl; rewrite ?Hf, ?Hr; try done; try (by eexists).
    + apply dom_chat_state. apply dom_setitem; [done | by eexists].
    + destruct (chat_state_slot c w _ _ Hset) as [H|H]; [by left|].
      right. exists c. by rewrite H, Hsel.
  - injection Hs as _ <-.
    assert (ca = PyNone) as ->.
    { destruct Hslot as [H|[c H]]; [congruence|].
      assert (ca = PyStr (value (class_name c))) as -> by congruence.
      assert (speaker_of w (PyStr (value (class_name c)))
              = PyStr (value (class_name c))) as Hsp
        by (unfold speaker_of; by destruct c).
      rewrite Hsp in Hsel.
      assert (select_agent (PyStr (value (class_name c))) = Some c) as Hc
        by by apply select_agent_spec.
      congruence. }
    split; simpl; rewrite ?Hf; try done; try (by eexists); try (by left).
Qed.

Lemma driver_ok_iteration w d evs d' :
  iteration w d = (evs, Ok d') -> driver_ok d -> driver_ok d'.
Proof.
  intros Hi Hok.
  destruct (next_message w d) as [e1 [[d1 msg]|x]] eqn:Hnm;
    [|by rewrite (iteration_raise _ _ _ _ Hnm) in Hi].
  rewrite (iteration_eq _ _ _ _ _ Hnm) in Hi.
  apply next_message_sound in Hnm.
  destruct (next_message_ok _ _ _ _ _ Hnm Hok) as (Hk & Hs & Hf & Hr & _ & _).
  destruct (speak w d1 msg) as [e2 r] eqn:Hsp. simpl in Hi.
  injection Hi as _ ->. by eapply speak_ok.
Qed.

Lemma driver_ok_run_from ws d evs d' :
  run_from ws d = (evs, Ok d') -> driver_ok d -> driver_ok d'.
Proof.
  revert d evs. induction ws as [|w ws IH]; intros d evs; simpl.
  - unfold_M. by intros [= _ <-].
  - unfold mbind, M_bind.
    destruct (iteration w d) as [e1 [d1|x]] eqn:Hi; [|done].
    destruct (run_from ws d1) as [e2 r] eqn:Hr. intros [= _ ->] Hok.
    eapply IH; [exact Hr|]. by eapply driver_ok_iteration.
Qed.

Lemma driver_ok_run ws evs d : run ws = (evs, Ok d) -> driver_ok d.
Proof. intros H. eapply driver_ok_run_from; [exact H|]. apply driver_ok_initial. Qed.

(** X2. The state dictionary of every driver a run reaches has the six keys
    of [get_initial_state], no more and no fewer: the [done] tools and the
    driver only assign to keys that are there. *)
Theorem state_keys_invariant ws evs d :
  run ws = (evs, Ok d) -> dom (state d) = dom get_initial_state.
Proof. intros H. by destruct (driver_ok_run _ _ _ H). Qed.

Lemma state_keys_invariant_witness :
  dom (state (driver_after [world_company_done; world_industry_done]))
  = dom get_initial_state.
Proof.
  eapply (state_keys_invariant [world_company_done; world_industry_done]).
  vm_compute. reflexivity.
Defined.

(** ** How the loop can end *)

(** A pass that raises, from a driver at the head of the loop, raises the
    concierge's [AttributeError], right after the concierge's [chat]. *)
Lemma iteration_raise_inv w d evs x :
  driver_ok d -> iteration w d = (evs, Raise x) ->
  x = AttributeError "memory" /\
  exists m h, last evs = Some (EChat ConciergeAgent m h).
Proof.
  intros Hok Hi.
  destruct (next_message w d) as [e1 [[d1 msg]|y]] eqn:Hnm.
  - rewrite (iteration_eq _ _ _ _ _ Hnm) in Hi.
    apply next_message_sound in Hnm.
    destruct (next_message_ok _ _ _ _ _ Hnm Hok) as (Hk & Hs & _).
    assert (exists ca, state d1 !! "current_agent" = Some ca) as [ca Hca]
      by (destruct Hs as [?|[c ?]]; eauto).
    rewrite (speak_eq _ _ _ ca Hca) in Hi. simpl in Hi.
    destruct (select_agent (speaker_of w ca)) as [c|]; [|done]. simpl in Hi.
    destruct c; simpl in Hi; try done.
    injection Hi as <- <-. split; [done|].
    do 2 eexists. unfold chat_events. simpl.
    rewrite app_assoc. apply last_snoc.
  - exfalso. rewrite (iteration_raise _ _ _ _ Hnm) in Hi. injection Hi as _ ->.
    destruct Hok as [Hkeys _ _ _ Hhist].
    unfold next_message, getitem in Hnm. unfold_M. simpl in Hnm.
    destruct (first_run d) eqn:Hf; [done|].
    destruct (is_retry d); [done|].
    destruct (key_present (state d) "just_finished" Hkeys) as [jf Hj]; [by eexists|].
    rewrite Hj in Hnm. simpl in Hnm.
    destruct (Hhist eq_refl) as [h Hh]. rewrite Hh in Hnm. simpl in Hnm.
    destruct (py_eq_True jf && (num_tries d + 1 <? 5)); simpl in Hnm; [|done].
    by destruct (contains "no_further_task" (strip (w_quality w))).
Qed.

Lemma run_from_raise_inv ws d evs x :
  driver_ok d -> run_from ws d = (evs, Raise x) ->
  x = AttributeError "memory" /\
  exists m h, last evs = Some (EChat ConciergeAgent m h).
Proof.
  revert d evs. induction ws as [|w ws IH]; intros d evs Hok; simpl; [done|].
  unfold mbind, M_bind.
  destruct (iteration w d) as [e1 [d1|y]] eqn:Hi.
  - destruct (run_from ws d1) as [e2 r] eqn:Hr. intros [= <- ->].
    destruct (IH d1 e2) as (-> & m & h & Hl); [by eapply driver_ok_iteration|done|].
    split; [done|]. exists m, h. rewrite last_app. by rewrite Hl.
  - intros [= <- <-]. by apply (iteration_raise_inv w d).
Qed.

(** X3. The only exception that ends [run] is the [AttributeError] for the
    concierge's missing [memory], raised right after the concierge's [chat]:
    the loop never fails on a missing state key or on [current_history]
    being unassigned. *)
Theorem run_ends_only_at_concierge ws evs x :
  run ws = (evs, Raise x) ->
  x = AttributeError "memory" /\
  exists m h, last evs = Some (EChat ConciergeAgent m h).
Proof. apply run_from_raise_inv, driver_ok_initial. Qed.

(** The stock agent finishes, the user is asked, and the orchestrator sends
    the user's line to the concierge. *)
Lemma run_ends_only_at_concierge_witness :
  AttributeError "memory" = AttributeError "memory" /\
  exists m h,
    last (events (run [world_industry_done; world_concierge]))
    = Some (EChat ConciergeAgent m h).
Proof.
  eapply (run_ends_only_at_concierge [world_industry_done; world_concierge]).
  vm_compute. reflexivity.
Defined.

(** ** How often the quality evaluation runs *)

Lemma count_evaluation_chat c w msg h n :
  fold_left count_evaluation (chat_events c w msg h) n = n.
Proof.
  unfold chat_events. simpl. destruct (done_tool c); [|done].
  generalize (w_done_calls w). intros calls.
  induction calls as [|p calls IH]; simpl; done.
Qed.

(** The rest of a pass neither evaluates nor reads input, and leaves
    [num_tries] alone. *)
Lemma count_evaluation_speak w d msg n :
  fold_left count_evaluation (events (speak w d msg)) n = n /\
  forall d', outcome (speak w d msg) = Ok d' -> num_tries d' = num_tries d.
Proof.
  destruct (state d !! "current_agent") as [ca|] eqn:Hca;
    [|by rewrite (speak_no_key _ _ _ Hca)].
  rewrite (speak_eq _ _ _ ca Hca). simpl.
  assert (forall k, fold_left count_evaluation
                      (speaker_events ca msg (w_root_get w (root_memory d))) k = k)
    as Hsp by (intros k; unfold speaker_events; by destruct (truthy ca)).
  destruct (select_agent (speaker_of w ca)) as [c|]; simpl.
  - rewrite fold_left_app, Hsp, count_evaluation_chat. split; [done|].
    intros d'. destruct (has_memory c); [|done]. by intros [= <-].
  - rewrite Hsp. split; [done|]. by intros d' [= <-].
Qed.

(** One pass keeps the count at most 4 and at most [num_tries]. *)
Lemma count_evaluation_iteration w d n :
  (n <= 4)%nat -> Z.of_nat n <= num_tries d ->
  (fold_left count_evaluation (events (iteration w d)) n <= 4)%nat /\
  forall d', outcome (iteration w d) = Ok d' ->
    Z.of_nat (fold_left count_evaluation (events (iteration w d)) n) <= num_tries d'.
Proof.
  intros Hn4 Hn.
  destruct (next_message w d) as [e1 [[d1 msg]|x]] eqn:Hnm.
  - rewrite (iteration_eq _ _ _ _ _ Hnm). simpl.
    rewrite fold_left_app.
    destruct (count_evaluation_speak w d1 msg (fold_left count_evaluation e1 n))
      as [-> Hnum].
    assert ((fold_left count_evaluation e1 n <= 4)%nat /\
            Z.of_nat (fold_left count_evaluation e1 n) <= num_tries d1) as [H4 Hd1].
    { apply next_message_sound in Hnm.
      destruct Hnm; simpl; lia. }
    split; [done|]. intros d' Hd'. by rewrite (Hnum d' Hd').
  - rewrite (iteration_raise _ _ _ _ Hnm). simpl.
    assert (e1 = []) as ->.
    { unfold next_message, getitem in Hnm. unfold_M. simpl in Hnm.
      destruct (first_run d); [done|]. destruct (is_retry d); [done|].
      destruct (state d !! "just_finished") as [jf|]; [|by injection Hnm].
      simpl in Hnm.
      destruct (py_eq_True jf && (num_tries d + 1 <? 5)); simpl in Hnm; [|done].
      destruct (current_history d); [|by injection Hnm]. simpl in Hnm.
      by destruct (contains "no_further_task" (strip (w_quality w))). }
    split; [done|]. done.
Qed.

Lemma count_evaluation_run_from ws d n :
  (n <= 4)%nat -> Z.of_nat n <= num_tries d ->
  (fold_left count_evaluation (events (run_from ws d)) n <= 4)%nat.
Proof.
  revert d n. induction ws as [|w ws IH]; intros d n Hn4 Hn; simpl; [done|].
  destruct (count_evaluation_iteration w d n Hn4 Hn) as [H4 Hnum].
  unfold mbind, M_bind.
  destruct (iteration w d) as [e1 [d1|x]] eqn:Hi; simpl in *; [|done].
  destruct (run_from ws d1) as [e2 r] eqn:Hr. simpl.
  rewrite fold_left_app.
  specialize (IH d1 (fold_left count_evaluation e1 n) H4 (Hnum d1 eq_refl)).
  by rewrite Hr in IH.
Qed.

(** X4. In any run, at any point, the quality evaluation has run at most 4
    times since the last user input (or since the start): the test
    [num_tries < 5] ends every chain of evaluations. *)
Theorem evaluations_bounded ws :
  (evaluations_since_input (events (run ws)) <= 4)%nat.
Proof. apply count_evaluation_run_from; simpl; lia. Qed.

(** The bound is reached. *)
Example evaluations_bound_reached :
  evaluations_since_input (events (run worlds_four_evaluations)) = 4%nat.
Proof. vm_compute. reflexivity. Qed.

(** ** When an agent keeps the floor *)

Lemma classic_evaluates evs : evaluates evs \/ ~ evaluates evs.
Proof.
  induction evs as [|e evs [IH|IH]].
  - right. by intros [h []].
  - left. destruct IH as [h Hh]. exists h. by right.
  - destruct e as [p|h|q h|c m h|c p];
      try (right; intros [h' [Hh'|Hh']]; [discriminate Hh' | apply IH; by exists h']).
    left. exists h. by left.
Qed.

(** X5. In any pass of any run, an agent is only spoken to without asking
    the orchestrator in a pass that began with a quality evaluation: on the
    first run, on a retry and after the prompt ["> "] no agent is pinned, so
    a line the user types there is always routed afresh. *)
Theorem pinned_agent_only_after_evaluation ws evs0 d w evs r c m h :
  run ws = (evs0, Ok d) ->
  iteration w d = (evs, r) ->
  In (EChat c m h) evs ->
  ~ asks_orchestrator evs ->
  evaluates evs.
Proof.
  intros Hrun Hi Hchat Hno.
  pose proof (driver_ok_run _ _ _ Hrun) as Hok.
  destruct (next_message w d) as [e1 [[d1 msg]|x]] eqn:Hnm.
  - rewrite (iteration_eq _ _ _ _ _ Hnm) in Hi. injection Hi as <- _.
    apply next_message_sound in Hnm.
    destruct (next_message_ok _ _ _ _ _ Hnm Hok) as (_ & _ & _ & _ & _ & Hnone).
    destruct (classic_evaluates e1) as [He|He].
    + destruct He as [h' Hh']. exists h'. apply in_or_app. by left.
    + exfalso. apply Hno. specialize (Hnone He).
      rewrite (speak_eq _ _ _ PyNone Hnone). simpl.
      exists msg, (w_root_get w (root_memory d1)).
      apply in_or_app. right.
      destruct (select_agent (speaker_of w PyNone)); simpl; by left.
  - exfalso. rewrite (iteration_raise _ _ _ _ Hnm) in Hi. injection Hi as <- _.
    pose proof (next_message_events _ _ _ _ Hnm) as He.
    rewrite Forall_forall in He. by apply list_elem_of_In, He in Hchat.
Qed.

(** The third pass of a run: the company agent asked back on the second
    pass and is spoken to again after the evaluation. *)
Lemma pinned_agent_only_after_evaluation_witness :
  evaluates
    [EQualityEval ["Hello"; "CRM trades at 250.00"];
     EChat CompanyResearchAgent "Please also research the company."
       ["Hello"; "Which company do you mean?"]].
Proof.
  eapply (pinned_agent_only_after_evaluation [world_stock_done; world_company_asks]
            _ _ world_company_asks _ _ CompanyResearchAgent
            "Please also research the company." ["Hello"; "Which company do you mean?"]).
  - vm_compute. reflexivity.
  - vm_compute. reflexivity.
  - by right; left.
  - intros (q & h & [Hin|[Hin|[]]]); discriminate Hin.
Defined.

(** ** What the quality evaluation is shown *)

(** X6. The chat history the quality evaluation is given is the view of the
    root memory the previous pass took before its agent spoke: after a pass
    that dispatched an agent the root memory holds that agent's memory, but
    the evaluation of the next pass still gets the older view. *)
Theorem evaluation_sees_previous_history w1 d e1 d1 w2 e2 d2 msg h :
  iteration w1 d = (e1, Ok d1) ->
  next_message w2 d1 = (e2, Ok (d2, msg)) ->
  In (EQualityEval h) e2 ->
  h = w_root_get w1 (root_memory d) /\
  ((exists c m h', In (EChat c m h') e1) -> root_memory d1 = w_memory w1).
Proof.
  intros Hi Hnm Hin.
  destruct (iteration_ok_inv _ _ _ _ Hi)
    as (e0 & d0 & msg0 & ca & Hnm0 & Hca & Hcases).
  assert (root_memory d0 = root_memory d) as Hroot by (by destruct Hnm0).
  assert (current_history d1 = Some (w_root_get w1 (root_memory d))) as Hh.
  { destruct Hcases as [(_ & _ & ->)|(c & _ & _ & _ & ->)]; simpl; by rewrite Hroot. }
  split.
  - apply next_message_sound in Hnm.
    destruct Hnm as [Hf|Hf Hr|h' Hf Hr Hj Hn Hh' Hq|h' Hf Hr Hj Hn Hh' Hq|jf Hf Hr Hj Hc];
      simpl in Hin; try (intuition discriminate).
    + destruct Hin as [[= <-]|[Hin|[]]]; [congruence | discriminate Hin].
    + destruct Hin as [[= <-]|[]]. congruence.
  - intros (c & m & h' & Hchat).
    destruct Hcases as [(_ & -> & _)|(c0 & _ & _ & _ & ->)]; [|done].
    exfalso. apply in_app_or in Hchat as [Hchat|Hchat].
    + pose proof (next_message_events _ _ _ _ (next_message_complete _ _ _ _ _ Hnm0)) as He.
      rewrite Forall_forall in He. by apply list_elem_of_In, He in Hchat.
    + unfold speaker_events in Hchat. destruct (truthy ca); simpl in Hchat;
        intuition discriminate.
Qed.

(** The stock agent answers on the first pass; the evaluation of the second
    pass is given the empty history of the start. *)
Lemma evaluation_sees_previous_history_witness :
  [] = w_root_get world_stock_done (root_memory initial_driver) /\
  ((exists c m h', In (EChat c m h') (events (iteration world_stock_done initial_driver))) ->
   root_memory (driver_after [world_stock_done]) = w_memory world_stock_done).
Proof.
  eapply (evaluation_sees_previous_history world_stock_done initial_driver _ _
            world_company_asks [EQualityEval []]).
  - vm_compute. reflexivity.
  - vm_compute. reflexivity.
  - simpl. by left.
Defined.

(** ** The orchestrator's tools after a completion signal *)

(** X7. What the orchestrator's tools report after an agent's [done]: the
    finished research is reported for industry and consumer research and the
    ticker for the stock agent, but company research is reported only if a
    ticker is set too: after [done] of the company agent
    [has_company_research] answers what [has_ticker] answered before, so a
    company report without a stock lookup counts as not done.  On the
    initial state all four answer [False]. *)
Theorem progress_tools_after_done (s : State) payload :
  has_ticker (stock_done payload s) = Ok true /\
  has_industry_research (industry_done payload s) = Ok true /\
  has_consumer_research (consumer_done payload s) = Ok true /\
  has_company_research (company_done payload s) = has_ticker s /\
  (forall ticker, has_company_research (company_done payload (stock_done ticker s)) = Ok true) /\
  has_company_research (company_done payload get_initial_state) = Ok false /\
  (has_ticker get_initial_state = Ok false /\
   has_company_research get_initial_state = Ok false /\
   has_industry_research get_initial_state = Ok false /\
   has_consumer_research get_initial_state = Ok false).
Proof.
  unfold has_ticker, has_industry_research, has_consumer_research,
    has_company_research, getitem,
    stock_done, industry_done, consumer_done, company_done, setitem.
  repeat split; try reflexivity; simplify_map_eq; try reflexivity.
  - destruct (s !! "ticker") as [v|]; simpl; [|done]. by rewrite andb_true_r.
  - intros ticker. by simplify_map_eq.
Qed.

(** ** How completion signals compose *)

Lemma owned_key_inj c1 c2 key :
  owned_key c1 = Some key -> owned_key c2 = Some key -> c1 = c2.
Proof. destruct c1, c2; simpl; intros H1 H2; try done; congruence. Qed.

(** X8. Completion signals compose as assignments do: a second [done] of the
    same agent replaces the payload of the first and changes nothing else,
    and [done] calls of two different agents give the same state in either
    order. *)
Theorem done_calls_compose :
  (forall c f p1 p2 (s : State),
     done_tool c = Some f -> f p2 (f p1 s) = f p2 s) /\
  (forall c1 c2 f1 f2 p1 p2 (s : State),
     done_tool c1 = Some f1 -> done_tool c2 = Some f2 -> c1 <> c2 ->
     f1 p1 (f2 p2 s) = f2 p2 (f1 p1 s)).
Proof.
  split.
  - intros c f p1 p2 s Hf.
    destruct (done_tool_shape c f Hf) as (key & Hk & Heq).
    destruct (owned_key_not_control c key Hk) as [Hc Hj].
    rewrite !Heq. unfold setitem. apply map_eq. intros k.
    rewrite !lookup_insert. repeat case_decide; congruence.
  - intros c1 c2 f1 f2 p1 p2 s Hf1 Hf2 Hne.
    destruct (done_tool_shape c1 f1 Hf1) as (k1 & Hk1 & Heq1).
    destruct (done_tool_shape c2 f2 Hf2) as (k2 & Hk2 & Heq2).
    destruct (owned_key_not_control c1 k1 Hk1) as [Hc1 Hj1].
    destruct (owned_key_not_control c2 k2 Hk2) as [Hc2 Hj2].
    assert (k1 <> k2) as Hk by (intros ->; by apply Hne, (owned_key_inj c1 c2 k2)).
    rewrite !Heq1, !Heq2. unfold setitem. apply map_eq. intros k.
    rewrite !lookup_insert. repeat case_decide; congruence.
Qed.

Lemma done_calls_compose_witness :
  industry_done "peers" (company_done "report" get_initial_state)
  = company_done "report" (industry_done "peers" get_initial_state).
Proof.
  destruct done_calls_compose as [_ Hcomm].
  by apply (Hcomm IndustryResearchAgent CompanyResearchAgent).
Defined.

(** ** Symbol search *)

Lemma json_first_falsy v : json_first v = None <-> json_truthy v = false.
Proof.
  destruct v as [|[]|x|[|a s]|[|y l]|[|y l]]; simpl; try done.
  destruct (Qeq_bool x 0); simpl; split; done.
Qed.

(** X9. Symbol search postcondition.  The call returns exactly when the
    response has no error message and its [bestMatches] is a list whose
    first element has the five numbered keys, and then it returns that
    element's five values, whatever the other matches are.  A dictionary
    with an error message, and a response without matches (no
    [bestMatches], or an empty one), raise [ValueError].  A response that is
    not a dictionary and has ["Error Message"] in it, a list with that
    element or a string with that text, raises [TypeError]: the message of
    the [ValueError] cannot be formatted. *)
Theorem symbol_search_postcondition data :
  (forall r,
     search_for_stock_symbol data = Ok r <->
     json_in "Error Message" data = Ok false /\
     exists best rest,
       json_getitem data "bestMatches" = Ok (JArr (best :: rest)) /\
       json_getitem best "1. symbol" = Ok (ss_symbol r) /\
       json_getitem best "2. name" = Ok (ss_name r) /\
       json_getitem best "3. type" = Ok (ss_type r) /\
       json_getitem best "4. region" = Ok (ss_region r) /\
       json_getitem best "8. currency" = Ok (ss_currency r)) /\
  (forall message,
     json_getitem data "Error Message" = Ok message ->
     search_for_stock_symbol data = Raise (ValueError "API Error" None)) /\
  (json_in "Error Message" data = Ok true ->
   (forall members, data <> JObj members) ->
   search_for_stock_symbol data = Raise TypeError) /\
  (json_in "Error Message" data = Ok false ->
   json_in "bestMatches" data = Ok false \/
   json_getitem data "bestMatches" = Ok (JArr []) ->
   search_for_stock_symbol data =
   Raise (ValueError "No stock symbol found for company" None)).
Proof.
  split; [|split; [|split]].
  - intros r. unfold search_for_stock_symbol. split.
    + destruct (json_in "Error Message" data) as [[]|] eqn:He; try done; simpl.
      { by destruct (json_getitem data "Error Message"). }
      destruct (json_in "bestMatches" data) as [[]|] eqn:Hb; try done. simpl.
      destruct (json_getitem data "bestMatches") as [matches|] eqn:Hm; [|done]. simpl.
      destruct matches as [|[]|x|[|a s]|[|best rest]|[|y l]]; simpl; try done.
      * by destruct (Qeq_bool x 0).
      * destruct (json_getitem best "1. symbol") as [v1|] eqn:H1; [|done]. simpl.
        destruct (json_getitem best "2. name") as [v2|] eqn:H2; [|done]. simpl.
        destruct (json_getitem best "3. type") as [v3|] eqn:H3; [|done]. simpl.
        destruct (json_getitem best "4. region") as [v4|] eqn:H4; [|done]. simpl.
        destruct (json_getitem best "8. currency") as [v5|] eqn:H5; [|done]. simpl.
        intros [= <-]. split; [done|]. by exists best, rest.
    + intros (He & best & rest & Hm & H1 & H2 & H3 & H4 & H5).
      rewrite He. simpl. rewrite (json_getitem_in _ _ _ Hm). simpl.
      rewrite Hm. simpl. rewrite H1. simpl. rewrite H2. simpl. rewrite H3. simpl.
      rewrite H4. simpl. rewrite H5. simpl. by destruct r.
  - intros message Hmsg. unfold search_for_stock_symbol.
    rewrite (json_getitem_in _ _ _ Hmsg). simpl. by rewrite Hmsg.
  - intros He Hshape. unfold search_for_stock_symbol. rewrite He. simpl.
    destruct data; try done. by destruct (Hshape members).
  - intros He [Hb|Hm]; unfold search_for_stock_symbol; rewrite He; simpl.
    + by rewrite Hb.
    + rewrite (json_getitem_in _ _ _ Hm). simpl. by rewrite Hm.
Qed.

(** The response of [test_search_for_stock_symbol], with a second match. *)
Example symbol_search_of_test_response :
  search_for_stock_symbol
    (JObj [("bestMatches",
            JArr [JObj [("1. symbol", JStr "AAPL"); ("2. name", JStr "Apple Inc.");
                        ("3. type", JStr "Equity"); ("4. region", JStr "United States");
                        ("5. marketOpen", JStr "09:30"); ("8. currency", JStr "USD")];
                  JObj [("1. symbol", JStr "APLE")]])])
  = Ok (mkStockSymbol (JStr "AAPL") (JStr "Apple Inc.") (JStr "Equity")
          (JStr "United States") (JStr "USD")).
Proof. reflexivity. Qed.

(** The provider's error message in a dictionary, and the same text in a
    response that is a list or a string. *)
Example symbol_search_error_message :
  search_for_stock_symbol (JObj [("Error Message", JStr "Invalid API call.")])
  = Raise (ValueError "API Error" None).
Proof. reflexivity. Qed.

Example symbol_search_error_in_list :
  search_for_stock_symbol (JArr [JStr "Error Message"]) = Raise TypeError.
Proof. reflexivity. Qed.

Example symbol_search_error_in_text :
  search_for_stock_symbol (JStr "Error Message: Invalid API call.") = Raise TypeError.
Proof. reflexivity. Qed.

(** A first match that lacks a key is not covered by the docstring's
    [ValueError]. *)
Example symbol_search_incomplete_match :
  search_for_stock_symbol
    (JObj [("bestMatches", JArr [JObj [("1. symbol", JStr "AAPL")]])])
  = Raise (KeyError "2. name").
Proof. reflexivity. Qed.

(** ** Company leadership *)

(** X10. [get_company_leadership] never raises.  When the company's [info]
    is a dictionary the result has exactly the six keys, each holding the
    value of [info] under the corresponding key, or ["N/A"] when [info] has
    no such key; in every other case (fetching [info] raised, or it is no
    dictionary) the result is the empty dictionary. *)
Theorem company_leadership_postcondition :
  (forall info, exists leadership,
     get_company_leadership info = Ok leadership /\
     (leadership = [] \/ map fst leadership = leadership_keys)) /\
  (forall members,
     get_company_leadership (Ok (JObj members)) =
     Ok [("CEO", from_option id (JStr "N/A") (assoc "ceo" members));
         ("Company", from_option id (JStr "N/A") (assoc "longName" members));
         ("Industry", from_option id (JStr "N/A") (assoc "industry" members));
         ("Sector", from_option id (JStr "N/A") (assoc "sector" members));
         ("Full Time Employees",
          from_option id (JStr "N/A") (assoc "fullTimeEmployees" members));
         ("Website", from_option id (JStr "N/A") (assoc "website" members))]) /\
  (forall info,
     (forall members, info <> Ok (JObj members)) ->
     get_company_leadership info = Ok []).
Proof.
  split; [|split].
  - intros [[| | | | |members]|e]; eexists; (split; [reflexivity|]);
      simpl; auto.
  - done.
  - intros [[| | | | |members]|e] Hne; try done. by destruct (Hne members).
Qed.

(** A key that is there with the value [null] keeps it; only an absent key
    becomes ["N/A"]. *)
Example company_leadership_null_and_absent :
  get_company_leadership
    (Ok (JObj [("longName", JStr "Apple Inc."); ("ceo", JNull)])) =
  Ok [("CEO", JNull); ("Company", JStr "Apple Inc."); ("Industry", JStr "N/A");
      ("Sector", JStr "N/A"); ("Full Time Employees", JStr "N/A");
      ("Website", JStr "N/A")].
Proof. reflexivity. Qed.

Section MoreToolProperties.
Context {L : Library}.

(** ** Historical prices, on any response *)

(** X11. On any response whatever: a list that [get_historical_stock_prices]
    returns is never empty, it is ascending in the [date] key, both dates of
    the request parse, the start is not after the end, and every returned
    date parses to a point between them.  In particular a request whose
    start lies after its end never returns.  A dictionary that carries an
    error message is refused with [ValueError] even if it carries a time
    series too; a response that is not a dictionary and has
    ["Error Message"] in it raises [TypeError]. *)
Theorem historical_prices_returned data start_date end_date :
  (forall out,
     get_historical_stock_prices data start_date end_date = Ok out ->
     out <> [] /\ StronglySorted date_le out /\
     exists s e,
       strptime start_date = Some s /\ strptime end_date = Some e /\ s <= e /\
       forall p, In p out -> exists t, strptime (date p) = Some t /\ s <= t <= e) /\
  (forall message,
     json_getitem data "Error Message" = Ok message ->
     get_historical_stock_prices data start_date end_date =
     Raise (ValueError "API Error" None)) /\
  (json_in "Error Message" data = Ok true ->
   (forall members, data <> JObj members) ->
   get_historical_stock_prices data start_date end_date = Raise TypeError).
Proof.
  split; [|split].
  - intros out. unfold get_historical_stock_prices.
    destruct (json_in "Error Message" data) as [[]|]; try done; simpl.
    { by destruct (json_getitem data "Error Message"). }
    destruct (json_in "Time Series (Daily)" data) as [[]|]; try done. simpl.
    destruct (json_getitem data "Time Series (Daily)") as [series|]; [|done]. simpl.
    unfold py_strptime.
    destruct (strptime start_date) as [s|] eqn:Hs; [|done]. simpl.
    destruct (strptime end_date) as [e|] eqn:He; [|done]. simpl.
    destruct (json_items series) as [items|]; [|done]. simpl.
    destruct (collect_prices s e items) as [l|] eqn:Hc; [|done]. simpl.
    destruct l as [|p0 l]; [done|]. intros [= <-].
    change (insert_by_date p0 (sorted_by_date l)) with (sorted_by_date (p0 :: l)).
    apply collect_prices_sound in Hc.
    pose proof (sorted_by_date_perm (p0 :: l)) as Hperm.
    assert (forall p, In p (sorted_by_date (p0 :: l)) ->
                      exists t, strptime (date p) = Some t /\ s <= t <= e) as Hin.
    { intros p Hp.
      by destruct (returned_point_in_range _ _ _ _ _ _ Hc Hperm Hp) as [_ ?]. }
    split; [|split; [apply sorted_by_date_strongly_sorted|]].
    + intros Hnil. rewrite Hnil in Hperm.
      by apply Permutation_sym, Permutation_nil_cons in Hperm.
    + exists s, e. split; [done|]. split; [done|]. split; [|done].
      destruct (Hin p0) as (t & _ & Ht); [|lia].
      apply (Permutation_in _ Hperm). by left.
  - intros message Hmsg. unfold get_historical_stock_prices.
    rewrite (json_getitem_in _ _ _ Hmsg). simpl. by rewrite Hmsg.
  - intros He Hshape. unfold get_historical_stock_prices. rewrite He. simpl.
    destruct data; try done. by destruct (Hshape members).
Qed.

(** ** Sentiment analysis, on any response *)

(** X12. Whatever the response is, [get_sentiment_analysis] raises nothing
    but [ValueError], as its docstring says: a 4xx or 5xx status is reported
    as an error fetching the articles, and every other failure, such as an
    article without a title, as an error performing the analysis. *)
Theorem sentiment_raises_only_ValueError response :
  (forall e, get_sentiment_analysis response = Raise e ->
             exists msg cause, e = ValueError msg (Some cause)) /\
  (400 <= status_code response < 600 ->
   get_sentiment_analysis response =
   Raise (ValueError "Error fetching news articles: "
            (Some (HTTPError (status_code response))))) /\
  (forall members rest,
     status_code response < 400 \/ 600 <= status_code response ->
     json_get (body response) "articles" (JArr []) = Ok (JArr (JObj members :: rest)) ->
     assoc "title" members = None ->
     get_sentiment_analysis response =
     Raise (ValueError "Error performing sentiment analysis: "
              (Some (KeyError "title")))).
Proof.
  split; [|split].
  - intros e. unfold get_sentiment_analysis.
    destruct (sentiment_body response) as [r|[]]; try done;
      intros [= <-]; by do 2 eexists.
  - intros [H1 H2]. unfold get_sentiment_analysis, sentiment_body, raise_for_status.
    apply Z.leb_le in H1. apply Z.ltb_lt in H2. by rewrite H1, H2.
  - intros members rest Hstatus Hget Htitle.
    unfold get_sentiment_analysis, sentiment_body.
    rewrite (raise_for_status_ok _ Hstatus). simpl. rewrite Hget. simpl.
    unfold article_polarity. simpl. by rewrite Htitle.
Qed.

End MoreToolProperties.

Example historical_prices_error_in_list :
  get_historical_stock_prices (L := reference_library)
    (JArr [JStr "Error Message"]) "2023-01-01" "2023-01-02" = Raise TypeError.
Proof. reflexivity. Qed.

Example historical_prices_inverted_range :
  get_historical_stock_prices (L := reference_library)
    test_historical_data "2023-01-03" "2023-01-01" =
  Raise (ValueError "No historical prices found" None).
Proof. vm_compute. reflexivity. Qed.

(** ** What the quality evaluation has to judge *)

Lemma delivered_setitem (s : State) k v :
  k = "current_agent" \/ k = "just_finished" ->
  delivered s -> delivered (setitem k v s).
Proof.
  intros Hk (c & key & p & Hkey & Hp).
  destruct (owned_key_not_control c key Hkey) as [Hc Hj].
  exists c, key, p. split; [done|]. unfold setitem.
  rewrite lookup_insert_ne; [done|]. destruct Hk; congruence.
Qed.

Lemma delivered_done c f payload (s : State) :
  done_tool c = Some f -> delivered (f payload s).
Proof.
  intros Hf. destruct (done_tool_owned c f Hf) as [key Hk].
  exists c, key, payload. split; [done|].
  by destruct (done_writes c f key payload s Hf Hk) as (? & _ & _).
Qed.

Lemma flag_has_result_chat c w (s : State) :
  flag_has_result s -> flag_has_result (chat_state c w s).
Proof.
  unfold chat_state. destruct (done_tool c) as [f|] eqn:Hf; [|done].
  destruct (w_done_calls w) as [|p calls _] using rev_ind; [done|].
  intros _ _. rewrite fold_left_app. simpl. by eapply delivered_done.
Qed.

Lemma flag_has_result_speak w d msg evs d' :
  speak w d msg = (evs, Ok d') ->
  flag_has_result (state d) -> flag_has_result (state d').
Proof.
  intros Hs Hok.
  destruct (state d !! "current_agent") as [ca|] eqn:Hca;
    [|by rewrite (speak_no_key _ _ _ Hca) in Hs].
  rewrite (speak_eq _ _ _ ca Hca) in Hs. simpl in Hs.
  destruct (select_agent (speaker_of w ca)) as [c|].
  - destruct (has_memory c); [|done]. injection Hs as _ <-. simpl.
    apply flag_has_result_chat. intros Hj.
    apply delivered_setitem; [by left|]. apply Hok.
    unfold setitem in Hj. by rewrite lookup_insert_ne in Hj.
  - by injection Hs as _ <-.
Qed.

Lemma flag_has_result_next_message w d evs d1 msg :
  NextMessage w d evs d1 msg ->
  flag_has_result (state d) -> flag_has_result (state d1).
Proof.
  destruct 1 as [Hf|Hf Hr|h Hf Hr Hj Hn Hh Hq|h Hf Hr Hj Hn Hh Hq|jf Hf Hr Hj Hc];
    simpl; try done.
  intros _ Hj'. unfold setitem in Hj'. by rewrite lookup_insert_eq in Hj'.
Qed.

Lemma flag_has_result_run_from ws d evs d' :
  run_from ws d = (evs, Ok d') ->
  flag_has_result (state d) -> flag_has_result (state d').
Proof.
  revert d evs. induction ws as [|w ws IH]; intros d evs; simpl.
  - unfold_M. by intros [= _ <-].
  - unfold mbind, M_bind.
    destruct (iteration w d) as [e1 [d1|x]] eqn:Hi; [|done].
    destruct (run_from ws d1) as [e2 r] eqn:Hr. intros [= _ ->] Hok.
    eapply IH; [exact Hr|].
    destruct (next_message w d) as [e0 [[d0 msg]|y]] eqn:Hnm;
      [|by rewrite (iteration_raise _ _ _ _ Hnm) in Hi].
    rewrite (iteration_eq _ _ _ _ _ Hnm) in Hi.
    destruct (speak w d0 msg) as [e3 r3] eqn:Hs. simpl in Hi.
    injection Hi as _ ->.
    eapply flag_has_result_speak; [exact Hs|].
    eapply flag_has_result_next_message; [|exact Hok].
    by apply next_message_sound.
Qed.

(** X14. The quality evaluation only runs when an agent has delivered
    something: in every pass of every run that evaluates, the state holds
    the payload of some [done] call under its agent's key.  [just_finished]
    is never [True] on a state without one. *)
Theorem evaluation_only_with_a_result ws evs d w e d1 msg :
  run ws = (evs, Ok d) ->
  next_message w d = (e, Ok (d1, msg)) ->
  evaluates e ->
  delivered (state d).
Proof.
  intros Hrun Hnm [h Hh].
  assert (flag_has_result (state d)) as Hok.
  { eapply flag_has_result_run_from; [exact Hrun|]. intros Hj. discriminate Hj. }
  apply next_message_sound in Hnm.
  destruct Hnm as [Hf|Hf Hr|h' Hf Hr Hj Hn Hh' Hq|h' Hf Hr Hj Hn Hh' Hq|jf Hf Hr Hj Hc];
    simpl in Hh; try (intuition discriminate); by apply Hok.
Qed.

Lemma evaluation_only_with_a_result_witness :
  delivered (state (driver_after [world_stock_done])).
Proof.
  eapply (evaluation_only_with_a_result [world_stock_done] _ _ world_company_asks
            [EQualityEval []]).
  - vm_compute. reflexivity.
  - vm_compute. reflexivity.
  - exists []. by left.
Defined.

(** ** These properties on concrete responses *)

(** The provider knows no such company: an empty list of matches. *)
Lemma symbol_search_postcondition_witness :
  search_for_stock_symbol (JObj [("bestMatches", JArr [])]) =
  Raise (ValueError "No stock symbol found for company" None).
Proof.
  destruct (symbol_search_postcondition (JObj [("bestMatches", JArr [])]))
    as (_ & _ & _ & Hnone).
  apply Hnone; [reflexivity | by right].
Defined.

Lemma historical_prices_returned_witness :
  test_historical_prices <> [] /\
  StronglySorted date_le test_historical_prices /\
  exists s e,
    python_strptime "2023-01-01" = Some s /\
    python_strptime "2023-01-02" = Some e /\ s <= e /\
    forall p, In p test_historical_prices ->
      exists t, python_strptime (date p) = Some t /\ s <= t <= e.
Proof.
  destruct (historical_prices_returned (L := reference_library)
              test_historical_data "2023-01-01" "2023-01-02") as (Hret & _ & _).
  apply Hret. vm_compute. reflexivity.
Defined.

(** The provider refuses the API key. *)
Lemma sentiment_raises_only_ValueError_witness :
  get_sentiment_analysis (L := reference_library)
    (mkResponse 401 (JObj [("status", JStr "error")])) =
  Raise (ValueError "Error fetching news articles: " (Some (HTTPError 401))).
Proof.
  destruct (sentiment_raises_only_ValueError (L := reference_library)
              (mkResponse 401 (JObj [("status", JStr "error")])))
    as (_ & Hhttp & _).
  apply Hhttp. simpl. lia.
Defined.

(** An article without a title. *)
Example sentiment_article_without_title :
  get_sentiment_analysis (L := reference_library)
    (mkResponse 200
       (JObj [("articles", JArr [JObj [("description", JStr "Apple stock is rising.")]])])) =
  Raise (ValueError "Error performing sentiment analysis: " (Some (KeyError "title"))).
Proof. reflexivity. Qed.
